(** * dehydrated-cloudflare: the DNS-01 hook, embedded in Rocq

    A shallow embedding of [dehydrated-cloudflare.py].  The module-level
    generator [_iter_domain] is a pure function on strings.  The methods of
    [CloudFlareHook] run in a small state-and-exception monad over a record
    holding the two fields of [self], the cache files on disk, the outside
    world (clock, CloudFlare API, DNS resolver) and the list of calls made
    to that world so far.

    Conventions:
    - [time.time()] and the ["created"] stamps are integers (seconds);
    - [CF_CACHETIME] is given already converted by [int(...)];
    - [self._log] calls are left out: no property below depends on them;
    - a [str] is given by its UTF-8 bytes, so that [bytes.decode("utf8")]
      checks the bytes and keeps them;
    - [CF_CACHEFMODE] is given as [int(..., base=8)] takes it: unset, a
      numeral, or a string that [int] refuses;
    - whether [dns.resolver] is loaded is a fact of the process: the file
      imports [dns] alone, which does not load it;
    - the cache file, when there is one, can be opened and holds JSON of
      the shape [_save_cache] writes. *)

From Stdlib Require Import ZArith Ascii String.
From stdpp Require Import gmap strings list fin_maps.
Open Scope string_scope.

(** ** Python strings *)

(** [s.split(sep)] for a one-character separator. *)
Fixpoint split_on (sep : ascii) (s : string) : list string :=
  match s with
  | EmptyString => [EmptyString]
  | String c s' =>
      if Ascii.eqb c sep then EmptyString :: split_on sep s'
      else match split_on sep s' with
           | [] => [String c EmptyString]
           | w :: ws => String c w :: ws
           end
  end.

(** [sep.join(l)] is [String.concat sep l]. *)

(** Truth value of [None] or a [str]: only a non-empty string is true. *)
Definition truthy (v : option string) : bool :=
  match v with
  | Some s => negb (String.eqb s "")
  | None => false
  end.

(** [lo <= c <= hi] for a byte [c]. *)
Definition byte_in (lo hi : N) (c : ascii) : bool :=
  (lo <=? N_of_ascii c)%N && (N_of_ascii c <=? hi)%N.

(** The byte strings [bytes.decode("utf8")] accepts: the well-formed UTF-8
    sequences (no overlong form, no surrogate, nothing above U+10FFFF). *)
Fixpoint utf8_valid (s : string) : bool :=
  match s with
  | EmptyString => true
  | String c1 s1 =>
      if byte_in 0 127 c1 then utf8_valid s1
      else
        match s1 with
        | EmptyString => false
        | String c2 s2 =>
            if byte_in 194 223 c1 then byte_in 128 191 c2 && utf8_valid s2
            else
              match s2 with
              | EmptyString => false
              | String c3 s3 =>
                  if byte_in 224 239 c1 then
                    (if byte_in 224 224 c1 then byte_in 160 191 c2
                     else if byte_in 237 237 c1 then byte_in 128 159 c2
                     else byte_in 128 191 c2)
                    && byte_in 128 191 c3 && utf8_valid s3
                  else
                    match s3 with
                    | EmptyString => false
                    | String c4 s4 =>
                        if byte_in 240 244 c1 then
                          (if byte_in 240 240 c1 then byte_in 144 191 c2
                           else if byte_in 244 244 c1 then byte_in 128 143 c2
                           else byte_in 128 191 c2)
                          && byte_in 128 191 c3 && byte_in 128 191 c4
                          && utf8_valid s4
                        else false
                    end
              end
        end
  end.

(** [[s.decode("utf8") for s in strings]]: the strings, or [None] when
    decoding one of them raises [UnicodeDecodeError]. *)
Definition decode_all (strings : list string) : option (list string) :=
  if forallb utf8_valid strings then Some strings else None.

(** ** The Domain Walker *)

(** The [while dom_idx > 0] loop: one candidate per value of [dom_idx],
    from [len(dom)] down to 1, each the join of [dom[dom_idx-1:]]. *)
Fixpoint _iter_domain_loop (dom : list string) (dom_idx : nat) : list string :=
  match dom_idx with
  | 0 => []
  | S i => String.concat "." (drop i dom) :: _iter_domain_loop dom i
  end.

Definition _iter_domain (domain : string) : list string :=
  let dom := split_on "." domain in
  _iter_domain_loop dom (length dom).

(** The walk as the specification words it: the whole name first, then
    the leftmost label stripped again and again until one label is left. *)
Fixpoint spec_walk (labels : list string) : list string :=
  match labels with
  | [] => []
  | _ :: rest => String.concat "." labels :: spec_walk rest
  end.

(** The character [c] occurs in [s]. *)
Fixpoint has_char (c : ascii) (s : string) : bool :=
  match s with
  | EmptyString => false
  | String c' s' => Ascii.eqb c' c || has_char c s'
  end.

(** ** Data *)

(** One value of [self._zone_id_cache]: [{"id": ..., "created": ...}]. *)
Record Entry := { id : option string; created : Z }.

(** The JSON cache file, with the mode [os.chmod] gave it. *)
Record CacheFile := {
  account : option string;
  zone : gmap string Entry;
  mode : Z
}.

(** What the provider returns for a zone and for a DNS record. *)
Record Zone := { z_id : string; z_name : string }.

Record DnsRecord := {
  r_id : string;
  r_name : string;
  r_type : string;
  r_content : string;
  r_ttl : Z
}.

(** The [new_record] dictionary posted by [_deploy_challenge]. *)
Record NewRecord := {
  new_name : string;
  new_type : string;
  new_content : string;
  new_ttl : Z
}.

(** One [rdata] of a TXT answer; its strings are byte strings. *)
Record Rdata := { strings : list string }.

Inductive ApiResult (A : Type) :=
| ApiOk (a : A)
| ApiError.
Arguments ApiOk {A} a.
Arguments ApiError {A}.

(** What the resolver does with a query: it answers, raises a
    [DNSException], or raises something else. *)
Inductive DnsResult :=
| DnsAnswer (response : list Rdata)
| DNSException
| DnsOtherError.

(** A variable read through [int(..., base=8)]. *)
Inductive OctalVar :=
| Unset
| Octal (n : Z)
| NotOctal.

(** [os.environ] *)
Record Environ := {
  CF_CACHETIME : option Z;
  CF_API_EMAIL : option string;
  CF_DNS_SERVERS : option string;
  CF_CACHEFMODE : OctalVar;
  CF_CACHEFILE : option string
}.

(** Calls that leave the process, in the order they are made (newest first
    in the list kept by the state). *)
Inductive Event :=
| EvZonesGet (name : string)
| EvRecordsGet (zone_id : option string) (name content : string)
| EvRecordsPost (zone_id : option string) (data : NewRecord)
| EvRecordsDelete (zone_id : option string) (record : string)
| EvDnsQuery (nameservers : option (list string)) (name : string) (answer : DnsResult)
| EvSleep (secs : Z).

Definition is_zones_get (e : Event) : bool :=
  match e with EvZonesGet _ => true | _ => false end.
Definition is_records_get (e : Event) : bool :=
  match e with EvRecordsGet _ _ _ => true | _ => false end.
Definition is_post (e : Event) : bool :=
  match e with EvRecordsPost _ _ => true | _ => false end.
Definition is_delete (e : Event) : bool :=
  match e with EvRecordsDelete _ _ => true | _ => false end.
Definition is_dns_query (e : Event) : bool :=
  match e with EvDnsQuery _ _ _ => true | _ => false end.
Definition is_gate (e : Event) : bool :=
  match e with EvDnsQuery _ _ _ | EvSleep _ => true | _ => false end.

(** The token is one of the strings of one of the records of the answer. *)
Definition answer_has_token (token : string) (response : list Rdata) : bool :=
  existsb (fun rdata => existsb (String.eqb token) (strings rdata)) response.

(** The outside world: the clock, the CloudFlare client, the resolver, the
    modules the process has loaded and the file modes. *)
Class World (W : Type) := {
  time_time : W -> Z * W;
  time_sleep : Z -> W -> W;
  zones_get : string -> W -> ApiResult (list Zone) * W;
  dns_records_get :
    option string -> string -> string -> string -> W ->
    ApiResult (list DnsRecord) * W;
  dns_records_post : option string -> NewRecord -> W -> ApiResult DnsRecord * W;
  dns_records_delete : option string -> string -> W -> ApiResult unit * W;
  resolver_query : option (list string) -> string -> string -> W -> DnsResult * W;
  dns_resolver_loaded : W -> bool;
  new_file_mode : W -> Z;
  os_chmod : string -> Z -> W -> bool * W
}.

Inductive Exn :=
| CloudFlareAPIError
| IndexError
| TypeError
| AttributeError
| UnicodeDecodeError
| OtherError
| ValueError
| OSError.

Inductive Outcome (A : Type) :=
| Returned (a : A)
| Raised (e : Exn)
| OutOfFuel.
Arguments Returned {A} a.
Arguments Raised {A} e.
Arguments OutOfFuel {A}.

Section Hook.

Context {W : Type} `{World W}.
Variable env : Environ.

(** ** State *)

Record State := {
  _zone_id_cache : gmap string Entry;
  _cache_changed : bool;
  files : gmap string CacheFile;
  world : W;
  trace : list Event
}.

Definition set_cache (c : gmap string Entry) (h : State) : State :=
  {| _zone_id_cache := c; _cache_changed := _cache_changed h;
     files := files h; world := world h; trace := trace h |}.
Definition set_changed (b : bool) (h : State) : State :=
  {| _zone_id_cache := _zone_id_cache h; _cache_changed := b;
     files := files h; world := world h; trace := trace h |}.
Definition set_files (f : gmap string CacheFile) (h : State) : State :=
  {| _zone_id_cache := _zone_id_cache h; _cache_changed := _cache_changed h;
     files := f; world := world h; trace := trace h |}.
Definition set_world (w : W) (h : State) : State :=
  {| _zone_id_cache := _zone_id_cache h; _cache_changed := _cache_changed h;
     files := files h; world := w; trace := trace h |}.
Definition emit (e : Event) (h : State) : State :=
  {| _zone_id_cache := _zone_id_cache h; _cache_changed := _cache_changed h;
     files := files h; world := world h; trace := e :: trace h |}.

(** [CloudFlareHook.__init__] *)
Definition __init__ (fs : gmap string CacheFile) (w : W) : State :=
  {| _zone_id_cache := ∅; _cache_changed := false;
     files := fs; world := w; trace := [] |}.

(** ** The monad *)

Definition M (A : Type) : Type := State -> Outcome A * State.

Definition ret {A} (a : A) : M A := fun h => (Returned a, h).
Definition raise {A} (e : Exn) : M A := fun h => (Raised e, h).
Definition bind {A B} (m : M A) (k : A -> M B) : M B := fun h =>
  match m h with
  | (Returned a, h') => k a h'
  | (Raised e, h') => (Raised e, h')
  | (OutOfFuel, h') => (OutOfFuel, h')
  end.

Notation "'let*' x := m 'in' k" := (bind m (fun x => k))
  (at level 10, x name, m at level 100, k at level 200, only parsing).
Notation "'do*' m 'in' k" := (bind m (fun _ => k))
  (at level 10, m at level 100, k at level 200, only parsing).

(** Every call [m] adds to the trace satisfies [P]. *)
Definition emits {A} (P : Event -> bool) (m : M A) : Prop :=
  forall h,
    exists evs, trace (snd (m h)) = (evs ++ trace h)%list /\ forallb P evs = true.

(** [m] leaves the component [f] of the state as it found it. *)
Definition keeps {A X} (f : State -> X) (m : M A) : Prop :=
  forall h, f (snd (m h)) = f h.

(** ** Calls to the world *)

Definition sleep (secs : Z) : M unit := fun h =>
  (Returned tt, emit (EvSleep secs) (set_world (time_sleep secs (world h)) h)).

(** An API error nobody catches leaves as [CloudFlareAPIError]. *)
Definition cf_zones_get (name : string) : M (list Zone) := fun h =>
  let (r, w) := zones_get name (world h) in
  let h' := emit (EvZonesGet name) (set_world w h) in
  match r with
  | ApiOk zones => (Returned zones, h')
  | ApiError => (Raised CloudFlareAPIError, h')
  end.

Definition cf_dns_records_get (zone_id : option string) (name content : string)
  : M (list DnsRecord) := fun h =>
  let (r, w) := dns_records_get zone_id "TXT" name content (world h) in
  let h' := emit (EvRecordsGet zone_id name content) (set_world w h) in
  match r with
  | ApiOk records => (Returned records, h')
  | ApiError => (Raised CloudFlareAPIError, h')
  end.

(** [post] and [delete] sit in a [try]: the result is handed to the caller. *)
Definition cf_dns_records_post (zone_id : option string) (data : NewRecord)
  : M (ApiResult DnsRecord) := fun h =>
  let (r, w) := dns_records_post zone_id data (world h) in
  (Returned r, emit (EvRecordsPost zone_id data) (set_world w h)).

Definition cf_dns_records_delete (zone_id : option string) (record : string)
  : M (ApiResult unit) := fun h =>
  let (r, w) := dns_records_delete zone_id record (world h) in
  (Returned r, emit (EvRecordsDelete zone_id record) (set_world w h)).

Definition resolver_fn (nameservers : option (list string)) (name : string)
  : M DnsResult := fun h =>
  let (r, w) := resolver_query nameservers name "TXT" (world h) in
  (Returned r, emit (EvDnsQuery nameservers name r) (set_world w h)).

(** ** The Zone Cache *)

Definition cachetime : Z := default (30 * 24 * 60 * 60)%Z (CF_CACHETIME env).

Definition _zone_id_from_cache (domain : string) : M (option string) := fun h =>
  match _zone_id_cache h !! domain with
  | Some e =>
      let (t, w) := time_time (world h) in
      if (t - created e >=? cachetime)%Z
      then (Returned None,
            set_cache (delete domain (_zone_id_cache h)) (set_world w h))
      else (Returned (id e), set_world w h)
  | None => (Returned None, h)
  end.

Definition _zone_id_to_cache (domain : string) (zone_id : option string)
  : M (option string) := fun h =>
  let (t, w) := time_time (world h) in
  (Returned zone_id,
   set_changed true
     (set_cache (<[domain := {| id := zone_id; created := t |}]> (_zone_id_cache h))
        (set_world w h))).

(** ** The Zone Resolver *)

(** The [for dom in _iter_domain(domain)] loop; falling off its end returns
    [None]. *)
Fixpoint _get_zone_id_loop (doms : list string) : M (option string) :=
  match doms with
  | [] => ret None
  | dom :: rest =>
      let* zone_id := _zone_id_from_cache dom in
      if truthy zone_id then ret zone_id
      else
        let* zones := cf_zones_get dom in
        match zones with
        | [] => do* _zone_id_to_cache dom None in _get_zone_id_loop rest
        | z :: _ => _zone_id_to_cache dom (Some (z_id z))
        end
  end.

Definition _get_zone_id (domain : string) : M (option string) :=
  _get_zone_id_loop (_iter_domain domain).

(** ** The Record Reconciler *)

Definition _get_txt_record_id (zone_id : option string) (name token : string)
  : M (option string) :=
  let* records := cf_dns_records_get zone_id name token in
  match records with
  | [] => ret None
  | r :: _ => ret (Some (r_id r))
  end.

(** ** The Propagation Gate *)

(** [dns.resolver]: an [AttributeError] unless the module is loaded. *)
Definition dns_resolver : M unit := fun h =>
  if dns_resolver_loaded (world h) then (Returned tt, h)
  else (Raised AttributeError, h).

(** The [for rdata in response] loop: each record is decoded whole before
    the token is looked for in it. *)
Fixpoint token_in_response (token : string) (response : list Rdata) : M bool :=
  match response with
  | [] => ret false
  | rdata :: rest =>
      match decode_all (strings rdata) with
      | None => raise UnicodeDecodeError
      | Some decoded =>
          if existsb (String.eqb token) decoded then ret true
          else token_in_response token rest
      end
  end.

Definition _dns_propagated (name token : string) : M bool :=
  let dns_servers := CF_DNS_SERVERS env in
  let nameservers :=
    if truthy dns_servers then Some (split_on "," (default "" dns_servers))
    else None in
  do* dns_resolver in
  let* response := resolver_fn nameservers name in
  match response with
  | DNSException => ret false
  | DnsOtherError => raise OtherError
  | DnsAnswer rdatas => token_in_response token rdatas
  end.

(** [while not self._dns_propagated(...): time.sleep(10)], one unit of fuel
    per query. *)
Fixpoint wait_propagated (fuel : nat) (record_name token : string) : M unit :=
  match fuel with
  | 0 => fun h => (OutOfFuel, h)
  | S fuel' =>
      let* ok := _dns_propagated record_name token in
      if ok then ret tt
      else do* sleep 10 in wait_propagated fuel' record_name token
  end.

(** The gate opens at the query that follows [k] failed ones: the loop as a
    step relation. *)
Inductive polls (record_name token : string) : nat -> State -> State -> Prop :=
| polls_now h h' :
    _dns_propagated record_name token h = (Returned true, h') ->
    polls record_name token 0 h h'
| polls_later k h h1 h' :
    _dns_propagated record_name token h = (Returned false, h1) ->
    polls record_name token k (snd (sleep 10 h1)) h' ->
    polls record_name token (S k) h h'.

(** ** The two actions *)

Definition _deploy_challenge (fuel : nat) (domain token_filename token_value : string)
  : M unit :=
  let* zone_id := _get_zone_id domain in
  let record_name := "_acme-challenge." ++ domain in
  let* record_id := _get_txt_record_id zone_id record_name token_value in
  if truthy record_id then ret tt
  else
    let new_record :=
      {| new_name := record_name; new_type := "TXT";
         new_content := token_value; new_ttl := 120 |} in
    let* result := cf_dns_records_post zone_id new_record in
    match result with
    | ApiError => ret tt
    | ApiOk _ => wait_propagated fuel record_name token_value
    end.

Definition _clean_challenge (domain token_filename token_value : string) : M unit :=
  let* zone_id := _get_zone_id domain in
  let record_name := "_acme-challenge." ++ domain in
  let* record_id := _get_txt_record_id zone_id record_name token_value in
  if negb (truthy record_id) then ret tt
  else
    let* result := cf_dns_records_delete zone_id (default "" record_id) in
    match result with
    | ApiError => ret tt
    | ApiOk _ => ret tt
    end.

(** ** Loading and saving the cache *)

Definition _load_cache (fname : string) : M unit := fun h =>
  match files h !! fname with
  | None => (Returned tt, h)
  | Some cache_file =>
      if bool_decide (account cache_file <> CF_API_EMAIL env)
      then (Returned tt, h)
      else (Returned tt, set_changed false (set_cache (zone cache_file) h))
  end.

(** [int(os.environ.get("CF_CACHEFMODE", "600"), base=8)], [None] when it
    raises [ValueError]. *)
Definition cachefmode : option Z :=
  match CF_CACHEFMODE env with
  | Unset => Some 384%Z
  | Octal n => Some n
  | NotOctal => None
  end.

(** The file is written first, under the mode it had or the mode of a new
    file; the mode is converted and set afterwards, and either step can
    raise. *)
Definition _save_cache (fname : string) : M unit := fun h =>
  if negb (_cache_changed h) then (Returned tt, h)
  else
    let written m :=
      <[fname := {| account := CF_API_EMAIL env;
                    zone := _zone_id_cache h;
                    mode := m |}]> (files h) in
    let before :=
      match files h !! fname with
      | Some f => mode f
      | None => new_file_mode (world h)
      end in
    match cachefmode with
    | None => (Raised ValueError, set_files (written before) h)
    | Some m =>
        let (ok, w) := os_chmod fname m (world h) in
        if ok then (Returned tt, set_files (written m) (set_world w h))
        else (Raised OSError, set_files (written before) (set_world w h))
    end.

(** ** The dispatcher *)

Definition main (fuel : nat) (argv : list string) : M unit :=
  let cache_fname := default "/etc/dehydrated/cloudflare.json" (CF_CACHEFILE env) in
  match argv with
  | [] => raise IndexError
  | op :: args =>
      if String.eqb op "deploy_challenge" then
        do* _load_cache cache_fname in
        match args with
        | [domain; token_filename; token_value] =>
            do* _deploy_challenge fuel domain token_filename token_value in
            _save_cache cache_fname
        | _ => raise TypeError
        end
      else if String.eqb op "clean_challenge" then
        do* _load_cache cache_fname in
        match args with
        | [domain; token_filename; token_value] =>
            do* _clean_challenge domain token_filename token_value in
            _save_cache cache_fname
        | _ => raise TypeError
        end
      else ret tt
  end.

End Hook.

Arguments State W : clear implicits.
Arguments M W A : clear implicits.

(** ** A provider and a resolver to run the hook against

    The account's zones are fixed; records live in a list, tagged with
    their zone; a request that names no zone of the account is refused;
    the resolver answers from a script, one entry per query, and fails
    once the script is used up; [dns.resolver] is loaded or not, [chmod]
    is refused or not, and a new file gets mode 0644. *)
Module Sim.

Record T := {
  clock : Z;
  zones : list Zone;
  records : list (string * DnsRecord);
  post_fails : bool;
  answers : list DnsResult;
  resolver_loaded : bool;
  chmod_fails : bool
}.

Definition has_zone (z : string) (w : T) : bool :=
  existsb (fun zn => String.eqb (z_id zn) z) (zones w).

Definition matches (z type name content : string) (zr : string * DnsRecord) : bool :=
  String.eqb (fst zr) z && String.eqb (r_type (snd zr)) type
  && String.eqb (r_name (snd zr)) name && String.eqb (r_content (snd zr)) content.

Definition tick (n : Z) (w : T) : T :=
  {| clock := (clock w + n)%Z; zones := zones w; records := records w;
     post_fails := post_fails w; answers := answers w;
     resolver_loaded := resolver_loaded w; chmod_fails := chmod_fails w |}.

Definition with_records (rs : list (string * DnsRecord)) (w : T) : T :=
  {| clock := clock w; zones := zones w; records := rs;
     post_fails := post_fails w; answers := answers w;
     resolver_loaded := resolver_loaded w; chmod_fails := chmod_fails w |}.

Definition with_answers (a : list DnsResult) (w : T) : T :=
  {| clock := clock w; zones := zones w; records := records w;
     post_fails := post_fails w; answers := a;
     resolver_loaded := resolver_loaded w; chmod_fails := chmod_fails w |}.

Definition get_zones (name : string) (w : T) : ApiResult (list Zone) * T :=
  (ApiOk (List.filter (fun zn => String.eqb (z_name zn) name) (zones w)), w).

Definition get_records (zone_id : option string) (type name content : string) (w : T)
  : ApiResult (list DnsRecord) * T :=
  match zone_id with
  | Some z =>
      if has_zone z w
      then (ApiOk (map snd (List.filter (matches z type name content) (records w))), w)
      else (ApiError, w)
  | None => (ApiError, w)
  end.

Definition post_record (zone_id : option string) (data : NewRecord) (w : T)
  : ApiResult DnsRecord * T :=
  match zone_id with
  | Some z =>
      if has_zone z w && negb (post_fails w)
      then
        let r := {| r_id := "id:" ++ new_name data ++ ":" ++ new_content data;
                    r_name := new_name data; r_type := new_type data;
                    r_content := new_content data; r_ttl := new_ttl data |} in
        (ApiOk r, with_records (records w ++ [(z, r)]) w)
      else (ApiError, w)
  | None => (ApiError, w)
  end.

Definition delete_record (zone_id : option string) (record : string) (w : T)
  : ApiResult unit * T :=
  match zone_id with
  | Some z =>
      if existsb (fun zr => String.eqb (fst zr) z && String.eqb (r_id (snd zr)) record)
           (records w)
      then (ApiOk tt,
            with_records
              (List.filter
                 (fun zr => negb (String.eqb (fst zr) z && String.eqb (r_id (snd zr)) record))
                 (records w)) w)
      else (ApiError, w)
  | None => (ApiError, w)
  end.

Definition query (nameservers : option (list string)) (name type : string) (w : T)
  : DnsResult * T :=
  match answers w with
  | [] => (DNSException, w)
  | a :: rest => (a, with_answers rest w)
  end.

#[global] Instance sim_world : World T := {
  time_time w := (clock w, w);
  time_sleep := tick;
  zones_get := get_zones;
  dns_records_get := get_records;
  dns_records_post := post_record;
  dns_records_delete := delete_record;
  resolver_query := query;
  dns_resolver_loaded := resolver_loaded;
  new_file_mode w := 420%Z;
  os_chmod fname m w := (negb (chmod_fails w), w)
}.

(** No variable set: every default applies. *)
Definition env0 : Environ :=
  {| CF_CACHETIME := None; CF_API_EMAIL := Some "ops@example.com";
     CF_DNS_SERVERS := None; CF_CACHEFMODE := Unset; CF_CACHEFILE := None |}.

(** The account holds the zone [example.com]; the record shows up at the
    third query of the resolver. *)
Definition w0 : T :=
  {| clock := 1000; zones := [{| z_id := "Z1"; z_name := "example.com" |}];
     records := []; post_fails := false;
     answers := [DNSException; DnsAnswer [];
                 DnsAnswer [{| strings := ["other"; "tok"] |}]];
     resolver_loaded := true; chmod_fails := false |}.

(** The same account, but the provider refuses every creation. *)
Definition w_refusing : T :=
  {| clock := 1000; zones := zones w0; records := [];
     post_fails := true; answers := answers w0;
     resolver_loaded := true; chmod_fails := false |}.

(** A hook whose cache holds a negative lookup of [com], ten seconds old. *)
Definition h_negative : State T :=
  {| _zone_id_cache := {[ "com" := {| id := None; created := 990 |} ]};
     _cache_changed := false; files := ∅; world := w0; trace := [] |}.

Definition cache_fname : string := "/etc/dehydrated/cloudflare.json".

(** A cache file written under another account. *)
Definition fs_other : gmap string CacheFile :=
  {[ cache_fname :=
       {| account := Some "someone@example.net";
          zone := {[ "example.com" := {| id := Some "Z9"; created := 900 |} ]};
          mode := 384 |} ]}.

(** A cache file of this account whose only entry is older than 30 days. *)
Definition fs_old : gmap string CacheFile :=
  {[ cache_fname :=
       {| account := Some "ops@example.com";
          zone := {[ "example.com" := {| id := Some "Z1"; created := -5000000 |} ]};
          mode := 384 |} ]}.

(** The worlds whose account holds the zones of [ref]. *)
Definition same_zones (ref w : T) : Prop := zones w = zones ref.

(** An account that holds a zone and a zone below it. *)
Definition w_nested : T :=
  {| clock := 1000;
     zones := [{| z_id := "Z2"; z_name := "sub.example.com" |};
               {| z_id := "Z1"; z_name := "example.com" |}];
     records := []; post_fails := false; answers := [];
     resolver_loaded := true; chmod_fails := false |}.


(** The process as the file's own imports leave it: [dns.resolver] is not
    loaded. *)
Definition w_as_imported : T :=
  {| clock := 1000; zones := zones w0; records := []; post_fails := false;
     answers := answers w0; resolver_loaded := false; chmod_fails := false |}.

(** A resolver whose answer holds a string that is not UTF-8 in a record
    before the one with the token. *)
Definition w_bad_bytes : T :=
  {| clock := 1000; zones := zones w0; records := []; post_fails := false;
     answers := [DnsAnswer [{| strings := [String (ascii_of_N 255) ""] |};
                            {| strings := ["tok"] |}]];
     resolver_loaded := true; chmod_fails := false |}.


(** An operator-supplied resolver list. *)
Definition env_resolvers : Environ :=
  {| CF_CACHETIME := None; CF_API_EMAIL := Some "ops@example.com";
     CF_DNS_SERVERS := Some "1.1.1.1,8.8.8.8"; CF_CACHEFMODE := Unset;
     CF_CACHEFILE := None |}.

End Sim.


(** * Properties *)

(** ** Splitting and joining *)

Lemma split_on_cons sep s : exists w ws, split_on sep s = w :: ws.
Proof.
  destruct s as [|c s]; simpl; [by eauto|].
  destruct (Ascii.eqb c sep); [by eauto|].
  destruct (split_on sep s); eauto.
Qed.

Lemma join_cons_cons sep (w w' : string) ws :
  String.concat sep (w :: w' :: ws) = w ++ sep ++ String.concat sep (w' :: ws).
Proof. reflexivity. Qed.

Lemma join_split s : String.concat "." (split_on "." s) = s.
Proof.
  induction s as [|c s IH]; [reflexivity|].
  cbn [split_on]. destruct (split_on_cons "." s) as (w & ws & Hs).
  rewrite Hs in IH |- *.
  destruct (Ascii.eqb_spec c ".") as [->|_].
  - rewrite join_cons_cons, IH. done.
  - destruct ws as [|w' ws].
    + simpl in *. by rewrite IH.
    + rewrite join_cons_cons in *. by rewrite <- IH.
Qed.

Lemma split_on_labels s : Forall (fun l => has_char "." l = false) (split_on "." s).
Proof.
  induction s as [|c s IH]; simpl; [by repeat constructor|].
  destruct (Ascii.eqb_spec c ".") as [->|Hc].
  - by constructor.
  - destruct (split_on_cons "." s) as (w & ws & Hs). rewrite Hs in IH |- *.
    apply Forall_cons in IH as [Hw Hws]. constructor; [|done].
    simpl. rewrite Hw. by apply Ascii.eqb_neq in Hc as ->.
Qed.

Lemma split_on_label w : has_char "." w = false -> split_on "." w = [w].
Proof.
  induction w as [|c w IH]; simpl; [done|].
  intros [Hc Hw]%orb_false_iff. rewrite Hc, (IH Hw). done.
Qed.

Lemma split_on_label_app w s :
  has_char "." w = false -> split_on "." (w ++ "." ++ s) = w :: split_on "." s.
Proof.
  induction w as [|c w IH]; simpl; [done|].
  intros [Hc Hw]%orb_false_iff. rewrite Hc, (IH Hw). done.
Qed.

Lemma split_join labels :
  labels <> [] -> Forall (fun l => has_char "." l = false) labels ->
  split_on "." (String.concat "." labels) = labels.
Proof.
  induction labels as [|w ws IH]; [done|]. intros _ Hall.
  apply Forall_cons in Hall as [Hw Hws].
  destruct ws as [|w' ws]; [by apply split_on_label|].
  rewrite join_cons_cons, split_on_label_app by done.
  f_equal. by apply IH.
Qed.

(** ** The Domain Walker *)

Lemma iter_domain_loop_seq dom n :
  _iter_domain_loop dom n = map (fun j => String.concat "." (drop j dom)) (rev (seq 0 n)).
Proof.
  induction n as [|n IH]; [done|].
  rewrite seq_S, rev_app_distr. simpl. by rewrite IH.
Qed.

Lemma spec_walk_seq labels :
  spec_walk labels =
  map (fun j => String.concat "." (drop j labels)) (seq 0 (length labels)).
Proof.
  induction labels as [|l rest IH]; [done|].
  simpl spec_walk. simpl length. simpl seq. simpl map.
  f_equal. rewrite IH, <- seq_shift, map_map. done.
Qed.

Lemma iter_domain_rev_walk domain :
  _iter_domain domain = rev (spec_walk (split_on "." domain)).
Proof.
  unfold _iter_domain. by rewrite iter_domain_loop_seq, spec_walk_seq, map_rev.
Qed.

Lemma iter_domain_length domain :
  length (_iter_domain domain) = length (split_on "." domain).
Proof.
  unfold _iter_domain. rewrite iter_domain_loop_seq.
  by rewrite length_map, length_rev, length_seq.
Qed.

Lemma iter_domain_loop_lookup dom n k :
  k < n ->
  _iter_domain_loop dom n !! k = Some (String.concat "." (drop (n - 1 - k) dom)).
Proof.
  revert k. induction n as [|n IH]; intros k Hk; [lia|].
  destruct k as [|k]; cbn [_iter_domain_loop lookup list_lookup].
  - do 3 f_equal. lia.
  - rewrite IH by lia. do 3 f_equal. lia.
Qed.

Lemma iter_domain_lookup domain k :
  k < length (split_on "." domain) ->
  _iter_domain domain !! k =
  Some (String.concat "."
          (drop (length (split_on "." domain) - 1 - k) (split_on "." domain))).
Proof. apply iter_domain_loop_lookup. Qed.

Lemma iter_domain_label_count domain k c :
  _iter_domain domain !! k = Some c -> length (split_on "." c) = S k.
Proof.
  intros Hc. pose proof (lookup_lt_Some _ _ _ Hc) as Hk.
  rewrite iter_domain_length in Hk.
  rewrite iter_domain_lookup in Hc by done. injection Hc as <-.
  rewrite split_join.
  - rewrite length_drop. lia.
  - intros Hnil%(f_equal length). rewrite length_drop in Hnil. simpl in Hnil. lia.
  - apply Forall_drop, split_on_labels.
Qed.

Lemma iter_domain_last domain : last (_iter_domain domain) = Some domain.
Proof.
  rewrite last_lookup, iter_domain_length.
  destruct (split_on_cons "." domain) as (w & ws & Hs).
  rewrite iter_domain_lookup by (rewrite Hs; simpl; lia).
  rewrite Hs. simpl length.
  replace (S (length ws) - 1 - pred (S (length ws))) with 0 by (simpl; lia).
  rewrite drop_0, <- Hs. by rewrite join_split.
Qed.

(** C1, as the code has it: for a domain with labels [l0, ..., ln] the walker
    yields exactly n+1 candidates, but least specific first: they are the
    reverse of the walk of the specification, the k-th one joins the last
    k+1 labels and has k+1 labels, the first is the single label [ln] and
    the last is the whole domain. *)
Theorem iter_domain_least_specific_first (domain : string) :
  let labels := split_on "." domain in
  length (_iter_domain domain) = length labels /\
  _iter_domain domain = rev (spec_walk labels) /\
  (forall k, k < length labels ->
     _iter_domain domain !! k =
     Some (String.concat "." (drop (length labels - 1 - k) labels))) /\
  (forall k c, _iter_domain domain !! k = Some c -> length (split_on "." c) = S k) /\
  head (_iter_domain domain) = last labels /\
  last (_iter_domain domain) = Some domain.
Proof.
  intros labels. split; [apply iter_domain_length|].
  split; [apply iter_domain_rev_walk|].
  split; [intros k Hk; by apply iter_domain_lookup|].
  split; [apply iter_domain_label_count|].
  split; [|apply iter_domain_last].
  destruct (split_on_cons "." domain) as (w & ws & Hs).
  rewrite head_lookup, iter_domain_lookup by (rewrite Hs; simpl; lia).
  rewrite last_lookup. subst labels. rewrite Hs. simpl length.
  replace (S (length ws) - 1 - 0) with (length ws) by lia.
  simpl pred.
  destruct (lookup_lt_is_Some_2 (w :: ws) (length ws)) as [x Hx]; [simpl; lia|].
  rewrite Hx, (drop_S _ _ _ Hx), drop_ge by (simpl; lia). done.
Qed.

(** C1 as worded fails: for [foo.example.com] the specification's walk
    starts at the whole name, the walker starts at [com]. *)
Lemma iter_domain_most_specific_first_fails :
  _iter_domain "foo.example.com" = ["com"; "example.com"; "foo.example.com"] /\
  spec_walk (split_on "." "foo.example.com")
    = ["foo.example.com"; "example.com"; "com"] /\
  _iter_domain "foo.example.com" <> spec_walk (split_on "." "foo.example.com").
Proof. by vm_compute. Qed.

(** ** The hook *)

Section HookProperties.

Context {W : Type} `{World W}.
Variable env : Environ.

Implicit Types (h : State W) (domain dom name token : string).
Local Open Scope list_scope.

(** *** What one step does to the state *)

Lemma zone_id_from_cache_cases dom h :
  match _zone_id_cache h !! dom with
  | None => _zone_id_from_cache env dom h = (Returned None, h)
  | Some e =>
      let (t, w) := time_time (world h) in
      if (t - created e >=? cachetime env)%Z
      then _zone_id_from_cache env dom h
           = (Returned None, set_cache (delete dom (_zone_id_cache h)) (set_world w h))
      else _zone_id_from_cache env dom h = (Returned (id e), set_world w h)
  end.
Proof.
  unfold _zone_id_from_cache. destruct (_zone_id_cache h !! dom) as [e|]; [|done].
  destruct (time_time (world h)) as [t w]. by destruct (_ >=? _)%Z.
Qed.

Lemma zone_id_from_cache_frame dom h :
  exists v h',
    _zone_id_from_cache env dom h = (Returned v, h') /\
    trace h' = trace h /\ files h' = files h /\
    _cache_changed h' = _cache_changed h /\
    (forall z, v = Some z ->
       exists e, _zone_id_cache h' !! dom = Some e /\ id e = Some z).
Proof.
  pose proof (zone_id_from_cache_cases dom h) as Hc.
  destruct (_zone_id_cache h !! dom) as [e|] eqn:He.
  - destruct (time_time (world h)) as [t w]. destruct (_ >=? _)%Z.
    + eexists _, _. split; [exact Hc|]. by repeat split.
    + eexists _, _. split; [exact Hc|]. repeat split; eauto.
  - eexists _, _. split; [exact Hc|]. by repeat split.
Qed.

Lemma zone_id_to_cache_frame dom v h :
  exists t h',
    _zone_id_to_cache dom v h = (Returned v, h') /\
    trace h' = trace h /\ files h' = files h /\
    _zone_id_cache h' = <[dom := {| id := v; created := t |}]> (_zone_id_cache h) /\
    _cache_changed h' = true.
Proof.
  unfold _zone_id_to_cache. destruct (time_time (world h)) as [t w].
  by eexists _, _.
Qed.

Lemma cf_zones_get_frame dom h :
  exists r h',
    cf_zones_get dom h = (r, h') /\
    trace h' = EvZonesGet dom :: trace h /\ files h' = files h /\
    _zone_id_cache h' = _zone_id_cache h /\
    _cache_changed h' = _cache_changed h.
Proof.
  unfold cf_zones_get. destruct (zones_get dom (world h)) as [[zs|] w];
    by eexists _, _.
Qed.

(** *** The Zone Resolver *)

(** The resolver talks to the provider through zone queries only, leaves
    the files alone, and what it returns is in the cache when it returns. *)
Lemma get_zone_id_loop_inv doms h r h' :
  _get_zone_id_loop env doms h = (r, h') ->
  (exists evs, trace h' = evs ++ trace h /\ forallb is_zones_get evs = true) /\
  files h' = files h /\
  (forall z, r = Returned (Some z) ->
     exists dom e, dom ∈ doms /\ _zone_id_cache h' !! dom = Some e /\ id e = Some z).
Proof.
  revert h. induction doms as [|dom rest IH]; intros h Hrun; simpl in Hrun.
  - injection Hrun as <- <-. split; [by exists []|]. split; [done|]. done.
  - unfold bind in Hrun.
    destruct (zone_id_from_cache_frame dom h) as (v & h1 & Hc & Ht1 & Hf1 & _ & Hv).
    rewrite Hc in Hrun.
    destruct (truthy v) eqn:Hv'.
    + injection Hrun as <- <-. split; [by exists []|]. split; [done|].
      intros z [= ->]. destruct (Hv z eq_refl) as (e & ? & ?).
      exists dom, e. split; [apply list_elem_of_here|done].
    + destruct (cf_zones_get_frame dom h1) as (r1 & h2 & Hg & Ht2 & Hf2 & _).
      rewrite Hg in Hrun. destruct r1 as [[|z0 zs]| |].
      * destruct (zone_id_to_cache_frame dom None h2) as (t & h3 & Hs & Ht3 & Hf3 & _).
        rewrite Hs in Hrun. apply IH in Hrun as ((evs & Hevs & Hall) & Hf & Hz).
        split; [|split].
        -- exists (evs ++ [EvZonesGet dom]).
           rewrite Hevs, Ht3, Ht2, Ht1, <- app_assoc. split; [done|].
           rewrite forallb_app, Hall. done.
        -- congruence.
        -- intros z Hr. destruct (Hz z Hr) as (d & e & ? & ?).
           exists d, e. split; [by apply list_elem_of_further|done].
      * destruct (zone_id_to_cache_frame dom (Some (z_id z0)) h2)
          as (t & h3 & Hs & Ht3 & Hf3 & Hc3 & _).
        rewrite Hs in Hrun. injection Hrun as <- <-. split; [|split].
        -- exists [EvZonesGet dom]. rewrite Ht3, Ht2, Ht1. done.
        -- congruence.
        -- intros z [= <-]. exists dom, {| id := Some (z_id z0); created := t |}.
           split; [apply list_elem_of_here|]. by rewrite Hc3, lookup_insert_eq.
      * injection Hrun as <- <-. split; [|split].
        -- exists [EvZonesGet dom]. rewrite Ht2, Ht1. done.
        -- congruence.
        -- done.
      * injection Hrun as <- <-. split; [|split].
        -- exists [EvZonesGet dom]. rewrite Ht2, Ht1. done.
        -- congruence.
        -- done.
Qed.

Lemma get_zone_id_inv domain h r h' :
  _get_zone_id env domain h = (r, h') ->
  (exists evs, trace h' = evs ++ trace h /\ forallb is_zones_get evs = true) /\
  files h' = files h /\
  (forall z, r = Returned (Some z) ->
     exists dom e,
       dom ∈ _iter_domain domain /\ _zone_id_cache h' !! dom = Some e /\ id e = Some z).
Proof. apply get_zone_id_loop_inv. Qed.

(** *** Which calls a computation makes *)

Lemma emits_ret {A} P (a : A) : emits (W := W) P (ret a).
Proof. intros h. by exists []. Qed.

Lemma emits_bind {A B} P (m : M W A) (k : A -> M W B) :
  emits P m -> (forall a, emits P (k a)) -> emits P (bind m k).
Proof.
  intros Hm Hk h. unfold bind. destruct (Hm h) as (evs & Ht & Hall).
  destruct (m h) as [[a| |] h1]; simpl in Ht; [|by exists evs..].
  destruct (Hk a h1) as (evs' & Ht' & Hall').
  exists (evs' ++ evs). rewrite Ht', Ht, app_assoc, forallb_app, Hall, Hall'. done.
Qed.

Lemma emits_weaken {A} (P Q : Event -> bool) (m : M W A) :
  (forall e, P e = true -> Q e = true) -> emits P m -> emits Q m.
Proof.
  intros HPQ Hm h. destruct (Hm h) as (evs & Ht & Hall).
  exists evs. split; [done|]. rewrite forallb_forall in *. auto.
Qed.

Lemma emits_get_zone_id domain : emits is_zones_get (_get_zone_id env domain).
Proof.
  intros h. destruct (_get_zone_id env domain h) as [r h'] eqn:Hrun.
  by apply get_zone_id_inv in Hrun as [? _].
Qed.

Lemma emits_get_txt_record_id zone_id name token :
  emits is_records_get (_get_txt_record_id zone_id name token).
Proof.
  intros h. unfold _get_txt_record_id, bind, cf_dns_records_get.
  destruct (dns_records_get _ _ _ _ _) as [[[|r rs]|] w];
    by exists [EvRecordsGet zone_id name token].
Qed.

(** Looking through the answer changes nothing; it says [True] only when
    the token is there. *)
Lemma token_in_response_run token response h r h' :
  token_in_response token response h = (r, h') ->
  h' = h /\ (r = Returned true -> answer_has_token token response = true).
Proof.
  induction response as [|rdata rest IH]; simpl.
  - by intros [= <- <-].
  - unfold decode_all. destruct (forallb utf8_valid (strings rdata)).
    + destruct (existsb (String.eqb token) (strings rdata)).
      * by intros [= <- <-].
      * intros Hrest. by apply IH in Hrest.
    + by intros [= <- <-].
Qed.

Lemma token_in_response_any_state token response h h0 :
  token_in_response token response h0
  = (fst (token_in_response token response h), h0).
Proof.
  induction response as [|rdata rest IH]; simpl; [done|].
  destruct (decode_all (strings rdata)) as [decoded|]; [|done].
  by destruct (existsb _ decoded).
Qed.

(** One poll, step by step. *)
Lemma dns_propagated_cases name token h :
  if dns_resolver_loaded (world h) then
    exists nameservers answer w,
      resolver_query nameservers name "TXT" (world h) = (answer, w) /\
      (truthy (CF_DNS_SERVERS env) = false -> nameservers = None) /\
      _dns_propagated env name token h
      = match answer with
        | DnsAnswer rdatas =>
            (fst (token_in_response token rdatas h),
             emit (EvDnsQuery nameservers name answer) (set_world w h))
        | DNSException =>
            (Returned false, emit (EvDnsQuery nameservers name answer) (set_world w h))
        | DnsOtherError =>
            (Raised OtherError, emit (EvDnsQuery nameservers name answer) (set_world w h))
        end
  else _dns_propagated env name token h = (Raised AttributeError, h).
Proof.
  unfold _dns_propagated, bind, dns_resolver.
  destruct (dns_resolver_loaded (world h)); [|done].
  unfold resolver_fn.
  set (ns := if truthy (CF_DNS_SERVERS env) then _ else None).
  destruct (resolver_query ns name "TXT" (world h)) as [answer w] eqn:Hq.
  exists ns, answer, w. split; [done|]. split; [subst ns; by intros ->|].
  destruct answer as [rdatas| |]; [|done..].
  apply token_in_response_any_state.
Qed.

Lemma emits_dns_propagated name token : emits is_gate (_dns_propagated env name token).
Proof.
  intros h. pose proof (dns_propagated_cases name token h) as Hc.
  destruct (dns_resolver_loaded (world h)).
  - destruct Hc as (ns & answer & w & _ & _ & ->).
    exists [EvDnsQuery ns name answer]. by destruct answer.
  - rewrite Hc. by exists [].
Qed.

Lemma emits_sleep secs : emits is_gate (sleep secs).
Proof. intros h. by exists [EvSleep secs]. Qed.

Lemma emits_wait_propagated fuel name token :
  emits is_gate (wait_propagated env fuel name token).
Proof.
  induction fuel as [|fuel IH]; simpl.
  - intros h. by exists [].
  - apply emits_bind; [apply emits_dns_propagated|]. intros [|].
    + apply emits_ret.
    + apply emits_bind; [apply emits_sleep|done].
Qed.

(** An unexpired entry with an id ends the walk with that id, no call made. *)
Lemma positive_entry_short_circuits dom rest h e z t w :
  _zone_id_cache h !! dom = Some e -> id e = Some z -> z <> "" ->
  time_time (world h) = (t, w) -> (t - created e < cachetime env)%Z ->
  _get_zone_id_loop env (dom :: rest) h = (Returned (Some z), set_world w h).
Proof.
  intros He Hid Hz Ht Hfresh. simpl.
  pose proof (zone_id_from_cache_cases dom h) as Hc. rewrite He, Ht in Hc.
  destruct (Z.geb_spec (t - created e) (cachetime env)); [lia|].
  unfold bind. rewrite Hc, Hid. simpl.
  apply String.eqb_neq in Hz. by rewrite Hz.
Qed.

(** When the provider knows none of the candidates and the cache holds no
    id, the walk ends with [None]. *)
Lemma get_zone_id_loop_not_found doms h :
  (forall dom w, exists w', zones_get dom w = (ApiOk [], w')) ->
  (forall dom e, _zone_id_cache h !! dom = Some e -> truthy (id e) = false) ->
  exists h', _get_zone_id_loop env doms h = (Returned None, h').
Proof.
  intros Hnone. revert h. induction doms as [|dom rest IH]; intros h Hcache; simpl.
  - by eexists.
  - unfold bind at 1.
    pose proof (zone_id_from_cache_cases dom h) as Hc.
    assert (exists v h1,
              _zone_id_from_cache env dom h = (Returned v, h1) /\
              truthy v = false /\
              forall d e, _zone_id_cache h1 !! d = Some e -> truthy (id e) = false)
      as (v & h1 & Hl & Hv & Hcache1).
    { destruct (_zone_id_cache h !! dom) as [e|] eqn:He.
      - destruct (time_time (world h)) as [t w]. destruct (_ >=? _)%Z.
        + eexists _, _. split; [exact Hc|]. split; [done|]. simpl.
          intros d e' [_ Hd]%lookup_delete_Some. eauto.
        + eexists _, _. split; [exact Hc|]. split; [by apply (Hcache dom)|]. done.
      - eexists _, _. split; [exact Hc|]. by split. }
    rewrite Hl, Hv. unfold bind at 1, cf_zones_get.
    destruct (Hnone dom (world h1)) as (w2 & ->).
    unfold bind, _zone_id_to_cache. simpl.
    destruct (time_time w2) as [t3 w3]. apply IH. simpl.
    intros d e' [[_ <-]|[_ Hd]]%lookup_insert_Some; [done|eauto].
Qed.

(** C9: an id returned by [_get_zone_id] is, when it returns, the id stored
    in the cache for one of the candidates of the requested domain. *)
Theorem get_zone_id_returns_cached domain h z h' :
  _get_zone_id env domain h = (Returned (Some z), h') ->
  exists dom e,
    dom ∈ _iter_domain domain /\ _zone_id_cache h' !! dom = Some e /\ id e = Some z.
Proof. intros Hrun. by apply (get_zone_id_inv domain h _ h' Hrun). Qed.

(** C2, where the code departs from it: a candidate whose cache entry is a
    stored negative lookup, not yet expired, gets the answer [None] from the
    cache, the answer of a domain never looked up, and the resolver sends
    the provider a zone query for that very candidate. *)
Theorem negative_entry_is_queried_again dom rest h e t w :
  _zone_id_cache h !! dom = Some e -> id e = None ->
  time_time (world h) = (t, w) -> (t - created e < cachetime env)%Z ->
  _zone_id_from_cache env dom h = (Returned None, set_world w h) /\
  (forall h0, _zone_id_cache h0 !! dom = None ->
     fst (_zone_id_from_cache env dom h0) = Returned None) /\
  exists evs,
    trace (snd (_get_zone_id_loop env (dom :: rest) h))
    = evs ++ EvZonesGet dom :: trace h.
Proof.
  intros He Hid Ht Hfresh.
  assert (_zone_id_from_cache env dom h = (Returned None, set_world w h)) as Hc.
  { pose proof (zone_id_from_cache_cases dom h) as Hc. rewrite He, Ht in Hc.
    destruct (Z.geb_spec (t - created e) (cachetime env)); [lia|]. by rewrite <- Hid. }
  split; [done|]. split.
  { intros h0 H0. pose proof (zone_id_from_cache_cases dom h0) as Hc0.
    rewrite H0 in Hc0. by rewrite Hc0. }
  simpl. unfold bind at 1. rewrite Hc.
  change (truthy None) with false. cbv beta iota. unfold bind at 1.
  destruct (cf_zones_get_frame dom (set_world w h)) as (r1 & h2 & Hg & Ht2 & _).
  rewrite Hg. simpl in Ht2. destruct r1 as [[|z0 zs]| |]; [| |by exists []..].
  - unfold bind.
    destruct (zone_id_to_cache_frame dom None h2) as (t3 & h3 & Hs & Ht3 & _).
    rewrite Hs.
    destruct (_get_zone_id_loop env rest h3) as [r4 h4] eqn:Hrest.
    apply get_zone_id_loop_inv in Hrest as ((evs & Hevs & _) & _).
    exists evs. simpl. by rewrite Hevs, Ht3, Ht2.
  - destruct (zone_id_to_cache_frame dom (Some (z_id z0)) h2) as (t3 & h3 & Hs & Ht3 & _).
    rewrite Hs. exists []. simpl. by rewrite Ht3, Ht2.
Qed.

(** *** The two actions *)

Lemma emits_post zone_id data :
  emits (W := W) is_post (cf_dns_records_post zone_id data).
Proof.
  intros h. unfold cf_dns_records_post.
  destruct (dns_records_post _ _ _) as [r w]. by exists [EvRecordsPost zone_id data].
Qed.

Lemma emits_delete zone_id record :
  emits (W := W) is_delete (cf_dns_records_delete zone_id record).
Proof.
  intros h. unfold cf_dns_records_delete.
  destruct (dns_records_delete _ _ _) as [r w].
  by exists [EvRecordsDelete zone_id record].
Qed.

Lemma bind_returned {A B} (m : M W A) (k : A -> M W B) h a h1 :
  m h = (Returned a, h1) -> bind m k h = k a h1.
Proof. intros Hm. unfold bind. by rewrite Hm. Qed.

Lemma bind_raised {A B} (m : M W A) (k : A -> M W B) h e h1 :
  m h = (Raised e, h1) -> bind m k h = (Raised e, h1).
Proof. intros Hm. unfold bind. by rewrite Hm. Qed.

Lemma get_txt_record_id_cases zone_id name token h :
  let h' w := emit (EvRecordsGet zone_id name token) (set_world w h) in
  match dns_records_get zone_id "TXT" name token (world h) with
  | (ApiOk [], w) =>
      _get_txt_record_id zone_id name token h = (Returned None, h' w)
  | (ApiOk (r :: _), w) =>
      _get_txt_record_id zone_id name token h = (Returned (Some (r_id r)), h' w)
  | (ApiError, w) =>
      _get_txt_record_id zone_id name token h = (Raised CloudFlareAPIError, h' w)
  end.
Proof.
  unfold _get_txt_record_id, bind, cf_dns_records_get.
  by destruct (dns_records_get _ _ _ _ _) as [[[|r rs]|] w].
Qed.

Lemma get_txt_record_id_trace zone_id name token h :
  trace (snd (_get_txt_record_id zone_id name token h))
  = EvRecordsGet zone_id name token :: trace h.
Proof.
  pose proof (get_txt_record_id_cases zone_id name token h) as Hc.
  destruct (dns_records_get _ _ _ _ _) as [[[|r rs]|] w]; by rewrite Hc.
Qed.

(** After the lookup [_deploy_challenge] only creates and waits,
    [_clean_challenge] only deletes. *)
Lemma deploy_after_lookup fuel domain token_filename token_value h zone_id h1 :
  _get_zone_id env domain h = (Returned zone_id, h1) ->
  exists evs,
    trace (snd (_deploy_challenge env fuel domain token_filename token_value h))
    = evs ++ EvRecordsGet zone_id ("_acme-challenge." ++ domain)%string token_value
             :: trace h1 /\
    forallb (fun e => is_post e || is_gate e) evs = true.
Proof.
  intros Hrun. unfold _deploy_challenge. rewrite (bind_returned _ _ _ _ _ Hrun).
  set (name := ("_acme-challenge." ++ domain)%string).
  pose proof (get_txt_record_id_trace zone_id name token_value h1) as Ht.
  destruct (_get_txt_record_id zone_id name token_value h1) as [[rid| |] h2] eqn:Hl;
    simpl in Ht.
  2,3: exists []; by rewrite (bind_raised _ _ _ _ _ Hl) || (unfold bind; rewrite Hl).
  rewrite (bind_returned _ _ _ _ _ Hl).
  match goal with
  | |- context [snd (?K h2)] =>
      assert (emits (fun e => is_post e || is_gate e) K) as HK
  end.
  { destruct (truthy rid); [apply emits_ret|].
    apply emits_bind.
    - eapply emits_weaken, emits_post. by intros e ->.
    - intros [created|]; [|apply emits_ret].
      eapply emits_weaken, emits_wait_propagated. intros e ->. apply orb_true_r. }
  destruct (HK h2) as (evs & Hevs & Hall). exists evs. by rewrite Hevs, Ht.
Qed.

Lemma clean_after_lookup domain token_filename token_value h zone_id h1 :
  _get_zone_id env domain h = (Returned zone_id, h1) ->
  exists evs,
    trace (snd (_clean_challenge env domain token_filename token_value h))
    = evs ++ EvRecordsGet zone_id ("_acme-challenge." ++ domain)%string token_value
             :: trace h1 /\
    forallb is_delete evs = true.
Proof.
  intros Hrun. unfold _clean_challenge. rewrite (bind_returned _ _ _ _ _ Hrun).
  set (name := ("_acme-challenge." ++ domain)%string).
  pose proof (get_txt_record_id_trace zone_id name token_value h1) as Ht.
  destruct (_get_txt_record_id zone_id name token_value h1) as [[rid| |] h2] eqn:Hl;
    simpl in Ht.
  2,3: exists []; by rewrite (bind_raised _ _ _ _ _ Hl) || (unfold bind; rewrite Hl).
  rewrite (bind_returned _ _ _ _ _ Hl).
  match goal with
  | |- context [snd (?K h2)] => assert (emits is_delete K) as HK
  end.
  { destruct (negb (truthy rid)); [apply emits_ret|].
    apply emits_bind; [apply emits_delete|]. intros [[]|]; apply emits_ret. }
  destruct (HK h2) as (evs & Hevs & Hall). exists evs. by rewrite Hevs, Ht.
Qed.

(** C3, where the code departs from it: when the walk finds no zone,
    [_get_zone_id] returns [None], and both actions go on to send the
    provider a TXT record lookup with that [None] as the zone id; if the
    provider answers it with an empty list, [_deploy_challenge] sends the
    creation call as well. *)
Theorem no_zone_still_reaches_provider fuel domain token_filename token_value h h1 :
  _get_zone_id env domain h = (Returned None, h1) ->
  let record_name := ("_acme-challenge." ++ domain)%string in
  let lookup := EvRecordsGet None record_name token_value in
  let creation :=
    EvRecordsPost None
      {| new_name := record_name; new_type := "TXT";
         new_content := token_value; new_ttl := 120 |} in
  (exists evs,
     trace (snd (_deploy_challenge env fuel domain token_filename token_value h))
     = evs ++ lookup :: trace h1) /\
  (exists evs,
     trace (snd (_clean_challenge env domain token_filename token_value h))
     = evs ++ lookup :: trace h1) /\
  (forall w2,
     dns_records_get None "TXT" record_name token_value (world h1) = (ApiOk [], w2) ->
     exists evs,
       trace (snd (_deploy_challenge env fuel domain token_filename token_value h))
       = evs ++ creation :: lookup :: trace h1).
Proof.
  intros Hrun record_name lookup creation. split; [|split].
  - destruct (deploy_after_lookup fuel domain token_filename token_value _ _ _ Hrun)
      as (evs & Hevs & _). by exists evs.
  - destruct (clean_after_lookup domain token_filename token_value _ _ _ Hrun)
      as (evs & Hevs & _). by exists evs.
  - intros w2 Hget. unfold _deploy_challenge.
    rewrite (bind_returned _ _ _ _ _ Hrun). fold record_name.
    pose proof (get_txt_record_id_cases None record_name token_value h1) as Hl.
    rewrite Hget in Hl. rewrite (bind_returned _ _ _ _ _ Hl).
    change (truthy None) with false. cbv beta iota.
    unfold bind, cf_dns_records_post. simpl world.
    destruct (dns_records_post _ _ _) as [[created|] w3].
    + match goal with
      | |- context [wait_propagated env fuel ?n ?t ?hh] =>
          destruct (emits_wait_propagated fuel n t hh) as (evs & Hevs & _)
      end.
      exists evs. by rewrite Hevs.
    + by exists [].
Qed.

(** *** The Propagation Gate *)

Lemma dns_propagated_true name token h h' :
  _dns_propagated env name token h = (Returned true, h') ->
  exists nameservers rdatas,
    trace h' = EvDnsQuery nameservers name (DnsAnswer rdatas) :: trace h /\
    answer_has_token token rdatas = true.
Proof.
  intros Hok. pose proof (dns_propagated_cases name token h) as Hc.
  destruct (dns_resolver_loaded (world h)); [|by rewrite Hc in Hok].
  destruct Hc as (ns & answer & w & _ & _ & Hc). rewrite Hc in Hok.
  destruct answer as [rdatas| |]; [|done..].
  injection Hok as Hok <-. exists ns, rdatas. split; [done|].
  destruct (token_in_response token rdatas h) as [r h2] eqn:Hscan.
  by apply token_in_response_run in Hscan as [_ Htok]; apply Htok.
Qed.

Lemma polls_last_answer name token k h h' :
  polls env name token k h h' ->
  exists nameservers rdatas rest,
    trace h' = EvDnsQuery nameservers name (DnsAnswer rdatas) :: rest /\
    answer_has_token token rdatas = true.
Proof.
  induction 1 as [h h' Hok|k h h1 h' _ _ IH]; [|done].
  apply dns_propagated_true in Hok as (ns & rdatas & Ht & Hok). by eexists ns, rdatas, _.
Qed.

(** With fuel for one query more than the failed ones, the loop returns. *)
Lemma wait_propagated_complete name token k h h' :
  polls env name token k h h' ->
  forall fuel, k < fuel -> wait_propagated env fuel name token h = (Returned tt, h').
Proof.
  induction 1 as [h h' Hok|k h h1 h' Hno _ IH]; intros [|fuel] Hk; try lia; simpl.
  - by rewrite (bind_returned _ _ _ _ _ Hok).
  - rewrite (bind_returned _ _ _ _ _ Hno). unfold bind at 1. simpl.
    apply IH. lia.
Qed.

(** When the loop returns, it is because a query found the token. *)
Lemma wait_propagated_sound name token fuel h h' :
  wait_propagated env fuel name token h = (Returned tt, h') ->
  exists k, k < fuel /\ polls env name token k h h'.
Proof.
  revert h. induction fuel as [|fuel IH]; intros h Hrun; simpl in Hrun; [done|].
  destruct (_dns_propagated env name token h) as [[[|]| |] h1] eqn:Hq.
  - rewrite (bind_returned _ _ _ _ _ Hq) in Hrun.
    injection Hrun as <-. exists 0. split; [lia|]. by constructor.
  - rewrite (bind_returned _ _ _ _ _ Hq) in Hrun.
    unfold bind at 1 in Hrun. simpl in Hrun.
    apply IH in Hrun as (k & Hk & Hp). exists (S k). split; [lia|].
    by apply polls_later with h1.
  - by rewrite (bind_raised _ _ _ _ _ Hq) in Hrun.
  - unfold bind in Hrun. by rewrite Hq in Hrun.
Qed.

(** *** Counting calls *)

Lemma filter_none (P Q : Event -> bool) evs :
  forallb P evs = true -> (forall e, P e = true -> Q e = false) -> List.filter Q evs = [].
Proof.
  intros Hall HPQ. induction evs as [|e evs IH]; [done|].
  simpl in *. apply andb_true_iff in Hall as [He Hall].
  by rewrite (HPQ e He), IH.
Qed.

(** Zone resolution adds no call but zone queries. *)
Lemma get_zone_id_filter (Q : Event -> bool) domain h r h' :
  (forall e, is_zones_get e = true -> Q e = false) ->
  _get_zone_id env domain h = (r, h') ->
  List.filter Q (trace h') = List.filter Q (trace h).
Proof.
  intros HQ Hrun. apply get_zone_id_inv in Hrun as ((evs & -> & Hall) & _).
  by rewrite List.filter_app, (filter_none is_zones_get Q evs).
Qed.

(** C6: when the provider's lookup for (name, TXT, token) answers with no
    record, [_clean_challenge] returns normally right after that lookup; no
    delete call has been made. *)
Theorem clean_absent_record_is_noop domain token_filename token_value h zone_id h1 w2 :
  let record_name := ("_acme-challenge." ++ domain)%string in
  _get_zone_id env domain h = (Returned zone_id, h1) ->
  dns_records_get zone_id "TXT" record_name token_value (world h1) = (ApiOk [], w2) ->
  let h' := emit (EvRecordsGet zone_id record_name token_value) (set_world w2 h1) in
  _clean_challenge env domain token_filename token_value h = (Returned tt, h') /\
  List.filter is_delete (trace h') = List.filter is_delete (trace h).
Proof.
  intros record_name Hrun Hget h'. split.
  - unfold _clean_challenge. rewrite (bind_returned _ _ _ _ _ Hrun).
    fold record_name.
    pose proof (get_txt_record_id_cases zone_id record_name token_value h1) as Hl.
    rewrite Hget in Hl. by rewrite (bind_returned _ _ _ _ _ Hl).
  - simpl. eapply get_zone_id_filter; [|exact Hrun]. by intros [].
Qed.

(** C5: (1) when the lookup of [_deploy_challenge] finds a record for
    (name, TXT, token), the action returns right after that lookup and no
    creation call has been made; (2) of two calls in succession with the
    same name and token, the first finding no record and the second finding
    the record, the first makes one creation call and the second none: one
    creation call in all. *)
Theorem deploy_record_idempotent domain token_filename token_value :
  let record_name := ("_acme-challenge." ++ domain)%string in
  let data :=
    {| new_name := record_name; new_type := "TXT";
       new_content := token_value; new_ttl := 120 |} in
  (forall fuel h zone_id h1 r rs w2,
     _get_zone_id env domain h = (Returned zone_id, h1) ->
     dns_records_get zone_id "TXT" record_name token_value (world h1)
       = (ApiOk (r :: rs), w2) ->
     r_id r <> "" ->
     let h' := emit (EvRecordsGet zone_id record_name token_value) (set_world w2 h1) in
     _deploy_challenge env fuel domain token_filename token_value h = (Returned tt, h') /\
     List.filter is_post (trace h') = List.filter is_post (trace h)) /\
  (forall fuel fuel' h zone_id h1 w2 hmid zone_id' h1' r rs w2',
     _get_zone_id env domain h = (Returned zone_id, h1) ->
     dns_records_get zone_id "TXT" record_name token_value (world h1) = (ApiOk [], w2) ->
     _deploy_challenge env fuel domain token_filename token_value h = (Returned tt, hmid) ->
     _get_zone_id env domain hmid = (Returned zone_id', h1') ->
     dns_records_get zone_id' "TXT" record_name token_value (world h1')
       = (ApiOk (r :: rs), w2') ->
     r_id r <> "" ->
     let hend :=
       emit (EvRecordsGet zone_id' record_name token_value) (set_world w2' h1') in
     _deploy_challenge env fuel' domain token_filename token_value hmid
       = (Returned tt, hend) /\
     List.filter is_post (trace hmid)
       = EvRecordsPost zone_id data :: List.filter is_post (trace h) /\
     List.filter is_post (trace hend)
       = EvRecordsPost zone_id data :: List.filter is_post (trace h)).
Proof.
  intros record_name data.
  assert (forall fuel h zone_id h1 r rs w2,
     _get_zone_id env domain h = (Returned zone_id, h1) ->
     dns_records_get zone_id "TXT" record_name token_value (world h1)
       = (ApiOk (r :: rs), w2) ->
     r_id r <> "" ->
     let h' := emit (EvRecordsGet zone_id record_name token_value) (set_world w2 h1) in
     _deploy_challenge env fuel domain token_filename token_value h = (Returned tt, h') /\
     List.filter is_post (trace h') = List.filter is_post (trace h)) as Hfound.
  { intros fuel h zone_id h1 r rs w2 Hrun Hget Hid h'. split.
    - unfold _deploy_challenge. rewrite (bind_returned _ _ _ _ _ Hrun).
      fold record_name.
      pose proof (get_txt_record_id_cases zone_id record_name token_value h1) as Hl.
      rewrite Hget in Hl. rewrite (bind_returned _ _ _ _ _ Hl).
      apply String.eqb_neq in Hid. simpl. by rewrite Hid.
    - simpl. eapply get_zone_id_filter; [|exact Hrun]. by intros []. }
  split; [exact Hfound|].
  intros fuel fuel' h zone_id h1 w2 hmid zone_id' h1' r rs w2'
    Hrun Hget Hfirst Hrun' Hget' Hid hend.
  assert (List.filter is_post (trace hmid)
          = EvRecordsPost zone_id data :: List.filter is_post (trace h)) as Hone.
  { revert Hfirst. unfold _deploy_challenge. rewrite (bind_returned _ _ _ _ _ Hrun).
    fold record_name.
    pose proof (get_txt_record_id_cases zone_id record_name token_value h1) as Hl.
    rewrite Hget in Hl. rewrite (bind_returned _ _ _ _ _ Hl).
    change (truthy None) with false. cbv beta iota. fold data.
    unfold bind, cf_dns_records_post. simpl world.
    destruct (dns_records_post _ _ _) as [[created|] w3].
    - intros Hwait.
      match type of Hwait with
      | wait_propagated env fuel ?n ?t ?hh = _ =>
          destruct (emits_wait_propagated fuel n t hh) as (evs & Hevs & Hall)
      end.
      rewrite Hwait in Hevs. simpl in Hevs. rewrite Hevs, List.filter_app.
      rewrite (filter_none is_gate is_post evs) by (done || by intros []).
      simpl. f_equal. eapply get_zone_id_filter; [|exact Hrun]. by intros [].
    - intros [= <-]. simpl. f_equal.
      eapply get_zone_id_filter; [|exact Hrun]. by intros []. }
  destruct (Hfound fuel' hmid zone_id' h1' r rs w2' Hrun' Hget' Hid) as [Hsecond Hnone].
  split; [done|]. split; [done|]. fold hend in Hnone. by rewrite Hnone.
Qed.

(** C4, as the code has it: a [_deploy_challenge] whose lookup finds no
    record and whose creation call succeeds goes through the Propagation
    Gate: it returns only after a TXT query for the record name has answered
    with a record set holding the token; when the creation call fails it
    returns at once, no query made. *)
Theorem deploy_waits_after_creation
    domain token_filename token_value h zone_id h1 record_id h2 result w3 :
  let record_name := ("_acme-challenge." ++ domain)%string in
  let data :=
    {| new_name := record_name; new_type := "TXT";
       new_content := token_value; new_ttl := 120 |} in
  _get_zone_id env domain h = (Returned zone_id, h1) ->
  _get_txt_record_id zone_id record_name token_value h1 = (Returned record_id, h2) ->
  truthy record_id = false ->
  dns_records_post zone_id data (world h2) = (result, w3) ->
  let h3 := emit (EvRecordsPost zone_id data) (set_world w3 h2) in
  match result with
  | ApiOk _ =>
      forall fuel h',
        _deploy_challenge env fuel domain token_filename token_value h
          = (Returned tt, h') ->
        exists nameservers rdatas rest,
          trace h' = EvDnsQuery nameservers record_name (DnsAnswer rdatas) :: rest /\
          answer_has_token token_value rdatas = true
  | ApiError =>
      forall fuel,
        _deploy_challenge env fuel domain token_filename token_value h
          = (Returned tt, h3) /\
        List.filter is_dns_query (trace h3) = List.filter is_dns_query (trace h)
  end.
Proof.
  intros record_name data Hrun Hl Hrid Hpost h3.
  assert (forall fuel,
            _deploy_challenge env fuel domain token_filename token_value h
            = match result with
              | ApiOk _ => wait_propagated env fuel record_name token_value h3
              | ApiError => (Returned tt, h3)
              end) as Hdeploy.
  { intros fuel. unfold _deploy_challenge. rewrite (bind_returned _ _ _ _ _ Hrun).
    fold record_name. rewrite (bind_returned _ _ _ _ _ Hl), Hrid. fold data.
    unfold bind, cf_dns_records_post. rewrite Hpost. by destruct result. }
  destruct result as [created|].
  - intros fuel h' Hret. rewrite Hdeploy in Hret.
    apply wait_propagated_sound in Hret as (k & _ & Hp).
    by apply polls_last_answer in Hp.
  - intros fuel. split; [apply Hdeploy|].
    pose proof (get_txt_record_id_trace zone_id record_name token_value h1) as Ht.
    rewrite Hl in Ht. simpl in Ht |- *. rewrite Ht. simpl.
    eapply get_zone_id_filter; [|exact Hrun]. by intros [].
Qed.

(** *** The Zone Cache *)

(** C7: a cache file written under another account is left aside as a
    whole: [_load_cache] changes nothing, so that after [__init__] the
    cache in memory is empty and every lookup, also of a domain the file
    holds, answers [None] and makes no change. *)
Theorem load_cache_mismatch_discards fname cache_file :
  account cache_file <> CF_API_EMAIL env ->
  (forall h, files h !! fname = Some cache_file ->
     _load_cache env fname h = (Returned tt, h)) /\
  (forall fs w, fs !! fname = Some cache_file ->
     let h := snd (_load_cache env fname (__init__ fs w)) in
     _zone_id_cache h = ∅ /\
     forall domain, _zone_id_from_cache env domain h = (Returned None, h)).
Proof.
  intros Hacc.
  assert (forall h, files h !! fname = Some cache_file ->
            _load_cache env fname h = (Returned tt, h)) as Hload.
  { intros h Hf. unfold _load_cache. rewrite Hf. by rewrite bool_decide_true. }
  split; [done|]. intros fs w Hf h. subst h. rewrite Hload by done. simpl.
  split; [done|]. intros domain. unfold _zone_id_from_cache. simpl.
  by rewrite lookup_empty.
Qed.

(** C8: an entry stored for a domain, a zone id or [None], is answered as
    stored by a lookup made less than [cachetime] seconds after the store;
    a lookup made [cachetime] seconds or more after it answers [None] and
    deletes the entry. *)
Theorem cache_store_then_lookup domain v h t0 w0 h2 t1 w1 :
  time_time (world h) = (t0, w0) ->
  _zone_id_cache h2 = _zone_id_cache (snd (_zone_id_to_cache domain v h)) ->
  time_time (world h2) = (t1, w1) ->
  fst (_zone_id_to_cache domain v h) = Returned v /\
  _zone_id_cache (snd (_zone_id_to_cache domain v h)) !! domain
    = Some {| id := v; created := t0 |} /\
  ((t1 - t0 < cachetime env)%Z ->
     _zone_id_from_cache env domain h2 = (Returned v, set_world w1 h2)) /\
  ((t1 - t0 >= cachetime env)%Z ->
     _zone_id_from_cache env domain h2
       = (Returned None, set_cache (delete domain (_zone_id_cache h2)) (set_world w1 h2)) /\
     _zone_id_cache (snd (_zone_id_from_cache env domain h2)) !! domain = None).
Proof.
  intros Ht0 Hcache Ht1.
  assert (_zone_id_cache h2 !! domain = Some {| id := v; created := t0 |}) as He.
  { rewrite Hcache. unfold _zone_id_to_cache. rewrite Ht0. simpl.
    apply lookup_insert_eq. }
  split; [unfold _zone_id_to_cache; by rewrite Ht0|].
  split; [by rewrite <- Hcache|].
  pose proof (zone_id_from_cache_cases domain h2) as Hc.
  rewrite He, Ht1 in Hc. simpl in Hc.
  destruct (Z.geb_spec (t1 - t0) (cachetime env)); (split; [intros ?|intros ?]);
    try lia; [|done].
  split; [done|]. rewrite Hc. simpl. apply lookup_delete_eq.
Qed.

(** C10: a lookup never touches the dirty flag, also when it evicts; after
    a load that took the file, the lookup of an expired entry deletes it
    from the cache in memory and [_save_cache] then writes nothing: the file
    is as it was and still holds the entry. *)
Theorem eviction_leaves_file fname cache_file domain e :
  (forall h, _cache_changed (snd (_zone_id_from_cache env domain h)) = _cache_changed h) /\
  (forall fs w t w',
     fs !! fname = Some cache_file ->
     account cache_file = CF_API_EMAIL env ->
     zone cache_file !! domain = Some e ->
     time_time w = (t, w') ->
     (t - created e >= cachetime env)%Z ->
     let h1 := snd (_load_cache env fname (__init__ fs w)) in
     let h2 := snd (_zone_id_from_cache env domain h1) in
     let h3 := snd (_save_cache env fname h2) in
     _zone_id_cache h1 !! domain = Some e /\
     _zone_id_cache h2 !! domain = None /\
     _cache_changed h2 = false /\
     h3 = h2 /\
     files h3 = fs /\
     (exists f, files h3 !! fname = Some f /\ zone f !! domain = Some e)).
Proof.
  split.
  - intros h. by destruct (zone_id_from_cache_frame domain h)
      as (v & h' & -> & _ & _ & Hflag & _).
  - intros fs w t w' Hf Hacc He Ht Hold h1 h2 h3.
    assert (h1 = set_changed false (set_cache (zone cache_file) (__init__ fs w))) as E1.
    { subst h1. unfold _load_cache. simpl. rewrite Hf.
      by rewrite bool_decide_false by (by intros ?). }
    assert (h2 = set_cache (delete domain (_zone_id_cache h1)) (set_world w' h1)) as E2.
    { subst h2. pose proof (zone_id_from_cache_cases domain h1) as Hc.
      rewrite E1 in Hc |- *. simpl in Hc. rewrite He, Ht in Hc.
      destruct (Z.geb_spec (t - created e) (cachetime env)); [|lia]. by rewrite Hc. }
    assert (h3 = h2) as E3.
    { subst h3. unfold _save_cache. rewrite E2, E1. done. }
    split; [by rewrite E1|]. split; [rewrite E2; apply lookup_delete_eq|].
    split; [by rewrite E2, E1|]. split; [done|].
    assert (files h3 = fs) as Hfiles by (by rewrite E3, E2, E1).
    split; [done|]. exists cache_file. by rewrite Hfiles.
Qed.

End HookProperties.

(** C9 on a run: [test.example.com] against an account holding
    [example.com]. *)
Lemma get_zone_id_returns_cached_witness :
  exists dom e,
    dom ∈ _iter_domain "test.example.com" /\
    _zone_id_cache
      (snd (_get_zone_id Sim.env0 "test.example.com" (__init__ ∅ Sim.w0))) !! dom
    = Some e /\
    id e = Some "Z1".
Proof.
  apply (get_zone_id_returns_cached Sim.env0 "test.example.com"
           (__init__ ∅ Sim.w0) "Z1").
  vm_compute. reflexivity.
Defined.

(** *** The properties on runs *)

(** C2 on a run: [com] has a ten-second-old negative entry, and is queried. *)
Lemma negative_entry_is_queried_again_witness :
  _zone_id_from_cache Sim.env0 "com" Sim.h_negative
    = (Returned None, set_world Sim.w0 Sim.h_negative) /\
  (forall h0 : State Sim.T, _zone_id_cache h0 !! "com" = None ->
     fst (_zone_id_from_cache Sim.env0 "com" h0) = Returned None) /\
  exists evs,
    trace (snd (_get_zone_id Sim.env0 "example.com" Sim.h_negative))
    = (evs ++ EvZonesGet "com" :: trace Sim.h_negative)%list.
Proof.
  change (_get_zone_id Sim.env0 "example.com")
    with (_get_zone_id_loop Sim.env0 ["com"; "example.com"]).
  apply (negative_entry_is_queried_again Sim.env0 "com" ["example.com"]
           Sim.h_negative {| id := None; created := 990 |} 1000%Z Sim.w0).
  - vm_compute. reflexivity.
  - reflexivity.
  - reflexivity.
  - vm_compute. reflexivity.
Defined.

(** C3 on a run: the account has no zone for [test.example.org]. *)
Lemma no_zone_still_reaches_provider_witness :
  let h := __init__ ∅ Sim.w0 in
  let h1 := snd (_get_zone_id Sim.env0 "test.example.org" h) in
  let lookup := EvRecordsGet None "_acme-challenge.test.example.org" "tok" in
  fst (_get_zone_id Sim.env0 "test.example.org" h) = Returned None /\
  (exists evs,
     trace (snd (_deploy_challenge Sim.env0 5 "test.example.org" "f" "tok" h))
     = (evs ++ lookup :: trace h1)%list) /\
  (exists evs,
     trace (snd (_clean_challenge Sim.env0 "test.example.org" "f" "tok" h))
     = (evs ++ lookup :: trace h1)%list).
Proof.
  intros h h1 lookup. split; [vm_compute; reflexivity|].
  assert (_get_zone_id Sim.env0 "test.example.org" h = (Returned None, h1)) as Hrun
    by (vm_compute; reflexivity).
  destruct (no_zone_still_reaches_provider Sim.env0 5 "test.example.org" "f" "tok"
              h h1 Hrun) as (Hdeploy & Hclean & _).
  split; [exact Hdeploy|exact Hclean].
Defined.

(** C4 as worded fails: the provider refuses the creation and
    [_deploy_challenge] returns without a single TXT query. *)
Lemma deploy_returns_without_gate :
  let run :=
    _deploy_challenge Sim.env0 5 "test.example.com" "f" "tok"
      (__init__ ∅ Sim.w_refusing) in
  fst run = Returned tt /\
  List.filter is_dns_query (trace (snd run)) = [] /\
  List.filter is_post (trace (snd run))
  = [EvRecordsPost (Some "Z1")
       {| new_name := "_acme-challenge.test.example.com"; new_type := "TXT";
          new_content := "tok"; new_ttl := 120 |}].
Proof. vm_compute. done. Qed.

(** C4 on two runs: the creation succeeds and the third query finds the
    token; the creation is refused. *)
Lemma deploy_waits_after_creation_witness :
  let name := "_acme-challenge.test.example.com" in
  let run :=
    _deploy_challenge Sim.env0 5 "test.example.com" "f" "tok" (__init__ ∅ Sim.w0) in
  fst run = Returned tt /\
  (exists nameservers rdatas rest,
     trace (snd run) = EvDnsQuery nameservers name (DnsAnswer rdatas) :: rest /\
     answer_has_token "tok" rdatas = true) /\
  fst (_deploy_challenge Sim.env0 0 "test.example.com" "f" "tok"
         (__init__ ∅ Sim.w_refusing)) = Returned tt.
Proof.
  intros name run.
  pose (data := {| new_name := name; new_type := "TXT";
                   new_content := "tok"; new_ttl := 120 |}).
  pose (h := __init__ ∅ Sim.w0).
  pose (h1 := snd (_get_zone_id Sim.env0 "test.example.com" h)).
  pose (h2 := snd (_get_txt_record_id (Some "Z1") name "tok" h1)).
  pose (post := Sim.post_record (Some "Z1") data (world h2)).
  assert (_get_zone_id Sim.env0 "test.example.com" h = (Returned (Some "Z1"), h1))
    as Hzone by (vm_compute; reflexivity).
  assert (_get_txt_record_id (Some "Z1") name "tok" h1 = (Returned None, h2))
    as Hlookup by (vm_compute; reflexivity).
  assert (dns_records_post (Some "Z1") data (world h2) = (fst post, snd post))
    as Hpost by (vm_compute; reflexivity).
  pose proof (deploy_waits_after_creation Sim.env0 "test.example.com" "f" "tok"
                h (Some "Z1") h1 None h2 (fst post) (snd post)
                Hzone Hlookup eq_refl Hpost) as Hsafe.
  pose (g := __init__ ∅ Sim.w_refusing).
  pose (g1 := snd (_get_zone_id Sim.env0 "test.example.com" g)).
  pose (g2 := snd (_get_txt_record_id (Some "Z1") name "tok" g1)).
  assert (_get_zone_id Sim.env0 "test.example.com" g = (Returned (Some "Z1"), g1))
    as Gzone by (vm_compute; reflexivity).
  assert (_get_txt_record_id (Some "Z1") name "tok" g1 = (Returned None, g2))
    as Glookup by (vm_compute; reflexivity).
  assert (dns_records_post (Some "Z1") data (world g2) = (ApiError, world g2))
    as Gpost by (vm_compute; reflexivity).
  pose proof (deploy_waits_after_creation Sim.env0 "test.example.com" "f" "tok"
                g (Some "Z1") g1 None g2 ApiError (world g2)
                Gzone Glookup eq_refl Gpost) as Hrefused.
  split; [vm_compute; reflexivity|]. split.
  - apply (Hsafe 5 (snd run)). vm_compute. reflexivity.
  - destruct (Hrefused 0) as [Hret _]. fold g. rewrite Hret. reflexivity.
Defined.

(** C5 on two runs in a row against the same provider. *)
Lemma deploy_record_idempotent_witness :
  let creation :=
    EvRecordsPost (Some "Z1")
      {| new_name := "_acme-challenge.test.example.com"; new_type := "TXT";
         new_content := "tok"; new_ttl := 120 |} in
  let first :=
    _deploy_challenge Sim.env0 5 "test.example.com" "f" "tok" (__init__ ∅ Sim.w0) in
  let second :=
    _deploy_challenge Sim.env0 5 "test.example.com" "f" "tok" (snd first) in
  fst second = Returned tt /\
  List.filter is_post (trace (snd second)) = List.filter is_post (trace (snd first)) /\
  List.filter is_post (trace (snd first)) = [creation] /\
  List.filter is_post (trace (snd second)) = [creation].
Proof.
  intros creation first second.
  pose (name := "_acme-challenge.test.example.com").
  pose (h := __init__ ∅ Sim.w0).
  pose (h1 := snd (_get_zone_id Sim.env0 "test.example.com" h)).
  pose (hmid := snd first).
  pose (h1' := snd (_get_zone_id Sim.env0 "test.example.com" hmid)).
  pose (r := {| r_id := "id:_acme-challenge.test.example.com:tok"; r_name := name;
                r_type := "TXT"; r_content := "tok"; r_ttl := 120 |}).
  assert (_get_zone_id Sim.env0 "test.example.com" h = (Returned (Some "Z1"), h1))
    as Hzone by (vm_compute; reflexivity).
  assert (dns_records_get (Some "Z1") "TXT" name "tok" (world h1)
          = (ApiOk [], world h1)) as Hlookup by (vm_compute; reflexivity).
  assert (_deploy_challenge Sim.env0 5 "test.example.com" "f" "tok" h
          = (Returned tt, hmid)) as Hfirst by (vm_compute; reflexivity).
  assert (_get_zone_id Sim.env0 "test.example.com" hmid = (Returned (Some "Z1"), h1'))
    as Hzone' by (vm_compute; reflexivity).
  assert (dns_records_get (Some "Z1") "TXT" name "tok" (world h1')
          = (ApiOk [r], world h1')) as Hlookup' by (vm_compute; reflexivity).
  assert (r_id r <> "") as Hid by discriminate.
  destruct (deploy_record_idempotent Sim.env0 "test.example.com" "f" "tok")
    as [Hfound Htwice].
  destruct (Hfound 5 hmid (Some "Z1") h1' r [] (world h1') Hzone' Hlookup' Hid)
    as [Hsecond Hnone].
  destruct (Htwice 5 5 h (Some "Z1") h1 (world h1) hmid (Some "Z1") h1' r []
              (world h1') Hzone Hlookup Hfirst Hzone' Hlookup' Hid)
    as (Hsecond' & Hone & Hend).
  split; [|split; [|split]].
  - unfold second. fold hmid. by rewrite Hsecond.
  - unfold second. fold hmid. by rewrite Hsecond.
  - exact Hone.
  - unfold second. fold hmid. rewrite Hsecond'. exact Hend.
Defined.

(** C6 on a run: nothing was deployed, so there is nothing to clean. *)
Lemma clean_absent_record_is_noop_witness :
  let run :=
    _clean_challenge Sim.env0 "test.example.com" "f" "tok" (__init__ ∅ Sim.w0) in
  fst run = Returned tt /\
  List.filter is_delete (trace (snd run)) = [].
Proof.
  intros run.
  pose (h := __init__ ∅ Sim.w0).
  pose (h1 := snd (_get_zone_id Sim.env0 "test.example.com" h)).
  assert (_get_zone_id Sim.env0 "test.example.com" h = (Returned (Some "Z1"), h1))
    as Hzone by (vm_compute; reflexivity).
  assert (dns_records_get (Some "Z1") "TXT" "_acme-challenge.test.example.com" "tok"
            (world h1) = (ApiOk [], world h1))
    as Hlookup by (vm_compute; reflexivity).
  destruct (clean_absent_record_is_noop Sim.env0 "test.example.com" "f" "tok"
              h (Some "Z1") h1 (world h1) Hzone Hlookup) as [Hrun Hnone].
  unfold run. fold h. rewrite Hrun. split; [reflexivity|exact Hnone].
Defined.

(** C7 on a run: the file of another account holds [example.com]. *)
Lemma load_cache_mismatch_discards_witness :
  let h := snd (_load_cache Sim.env0 Sim.cache_fname (__init__ Sim.fs_other Sim.w0)) in
  _load_cache Sim.env0 Sim.cache_fname (__init__ Sim.fs_other Sim.w0)
    = (Returned tt, __init__ Sim.fs_other Sim.w0) /\
  _zone_id_cache h = ∅ /\
  _zone_id_from_cache Sim.env0 "example.com" h = (Returned None, h).
Proof.
  intros h.
  destruct (load_cache_mismatch_discards Sim.env0 Sim.cache_fname
              {| account := Some "someone@example.net";
                 zone := {[ "example.com" := {| id := Some "Z9"; created := 900 |} ]};
                 mode := 384 |} ltac:(discriminate)) as [Hload Hempty].
  split; [apply Hload; vm_compute; reflexivity|].
  destruct (Hempty Sim.fs_other Sim.w0 ltac:(vm_compute; reflexivity)) as [Hcache Hmiss].
  split; [exact Hcache|apply Hmiss].
Defined.

(** C8 on runs: a zone id and a negative lookup, read back at once and
    thirty days later. *)
Lemma cache_store_then_lookup_witness :
  let h := __init__ ∅ Sim.w0 in
  let stored v := snd (_zone_id_to_cache "example.com" v h) in
  let later v := set_world (Sim.tick 2592000 Sim.w0) (stored v) in
  fst (_zone_id_from_cache Sim.env0 "example.com" (stored (Some "Z1")))
    = Returned (Some "Z1") /\
  fst (_zone_id_from_cache Sim.env0 "example.com" (stored None)) = Returned None /\
  fst (_zone_id_from_cache Sim.env0 "example.com" (later (Some "Z1"))) = Returned None /\
  _zone_id_cache (snd (_zone_id_from_cache Sim.env0 "example.com" (later (Some "Z1"))))
    !! "example.com" = None.
Proof.
  intros h stored later.
  assert (time_time (world h) = (1000%Z, Sim.w0)) as Hnow by reflexivity.
  assert (forall v, time_time (world (stored v)) = (1000%Z, Sim.w0)) as Hsoon
    by reflexivity.
  assert (forall v, time_time (world (later v))
                    = (2593000%Z, Sim.tick 2592000 Sim.w0)) as Hlate
    by reflexivity.
  destruct (cache_store_then_lookup Sim.env0 "example.com" (Some "Z1") h 1000%Z Sim.w0
              (stored (Some "Z1")) 1000%Z Sim.w0 Hnow eq_refl (Hsoon _))
    as (_ & _ & Hfresh & _).
  destruct (cache_store_then_lookup Sim.env0 "example.com" None h 1000%Z Sim.w0
              (stored None) 1000%Z Sim.w0 Hnow eq_refl (Hsoon _))
    as (_ & _ & Hfresh' & _).
  destruct (cache_store_then_lookup Sim.env0 "example.com" (Some "Z1") h 1000%Z Sim.w0
              (later (Some "Z1")) 2593000%Z (Sim.tick 2592000 Sim.w0)
              Hnow eq_refl (Hlate _))
    as (_ & _ & _ & Hold).
  assert ((1000 - 1000 < cachetime Sim.env0)%Z) as Hlt by (vm_compute; reflexivity).
  assert ((2593000 - 1000 >= cachetime Sim.env0)%Z) as Hge
    by (vm_compute; discriminate).
  destruct (Hold Hge) as [Hevict Hgone].
  rewrite (Hfresh Hlt), (Hfresh' Hlt), Hevict.
  split; [reflexivity|]. split; [reflexivity|]. split; [reflexivity|].
  apply lookup_delete_eq.
Defined.

(** C10 on a run: the entry of the file is older than thirty days. *)
Lemma eviction_leaves_file_witness :
  let h1 := snd (_load_cache Sim.env0 Sim.cache_fname (__init__ Sim.fs_old Sim.w0)) in
  let h2 := snd (_zone_id_from_cache Sim.env0 "example.com" h1) in
  let h3 := snd (_save_cache Sim.env0 Sim.cache_fname h2) in
  let e := {| id := Some "Z1"; created := -5000000 |} in
  _zone_id_cache h1 !! "example.com" = Some e /\
  _zone_id_cache h2 !! "example.com" = None /\
  _cache_changed h2 = false /\
  h3 = h2 /\
  files h3 = Sim.fs_old /\
  (exists f, files h3 !! Sim.cache_fname = Some f /\ zone f !! "example.com" = Some e).
Proof.
  intros h1 h2 h3 e.
  destruct (eviction_leaves_file Sim.env0 Sim.cache_fname
              {| account := Some "ops@example.com";
                 zone := {[ "example.com" := e ]}; mode := 384 |}
              "example.com" e) as [_ Hrun].
  apply (Hrun Sim.fs_old Sim.w0 1000%Z Sim.w0);
    [vm_compute; reflexivity | reflexivity | vm_compute; reflexivity
    | reflexivity | vm_compute; discriminate].
Defined.

(** * Further properties *)

(** ** The Domain Walker *)

Lemma string_app_assoc (a b c : string) :
  ((a ++ b) ++ c)%string = (a ++ b ++ c)%string.
Proof.
  induction a as [|x a IH]; [done|].
  change (String x ((a ++ b) ++ c) = String x (a ++ b ++ c))%string.
  by rewrite IH.
Qed.

Lemma join_drop_suffix labels k :
  k < length labels ->
  exists p, String.concat "." labels = (p ++ String.concat "." (drop k labels))%string.
Proof.
  revert k. induction labels as [|w ws IH]; intros k Hk; [simpl in Hk; lia|].
  destruct k as [|k]; [by exists ""|].
  simpl in Hk. destruct ws as [|w' ws]; [simpl in Hk; lia|].
  destruct (IH k) as [p Hp]; [simpl in *; lia|].
  exists (w ++ "." ++ p)%string.
  rewrite join_cons_cons, Hp, !string_app_assoc. done.
Qed.

Lemma iter_domain_nodup (domain : string) : NoDup (_iter_domain domain).
Proof.
  apply NoDup_alt. intros i j c Hi Hj.
  apply iter_domain_label_count in Hi, Hj. lia.
Qed.

(** X1: every candidate is a tail of the domain as a string, and no
    candidate comes twice. *)
Theorem iter_domain_suffixes_nodup (domain : string) :
  Forall (fun c => exists p, domain = (p ++ c)%string) (_iter_domain domain) /\
  NoDup (_iter_domain domain).
Proof.
  split; [|apply iter_domain_nodup].
  apply Forall_lookup. intros k c Hc.
  pose proof (lookup_lt_Some _ _ _ Hc) as Hk. rewrite iter_domain_length in Hk.
  rewrite iter_domain_lookup in Hc by done. injection Hc as <-.
  destruct (join_drop_suffix (split_on "." domain)
              (length (split_on "." domain) - 1 - k)) as [p Hp]; [lia|].
  exists p. by rewrite <- Hp, join_split.
Qed.

(** X2: a name without a dot, the empty name too, has one candidate,
    itself. *)
Theorem iter_domain_single_label (domain : string) :
  has_char "." domain = false -> _iter_domain domain = [domain].
Proof.
  intros Hd. unfold _iter_domain. by rewrite (split_on_label domain Hd).
Qed.

Lemma iter_domain_single_label_witness :
  _iter_domain "localhost" = ["localhost"] /\ _iter_domain "" = [""].
Proof.
  split; apply iter_domain_single_label; reflexivity.
Defined.

(** ** The hook, further *)

Section HookExtras.

Context {W : Type} `{World W}.
Variable env : Environ.

Implicit Types (h : State W) (domain dom name token : string).
Local Open Scope list_scope.

(** *** The Zone Resolver *)

(** The zone queries go to the first candidates, one each and in order;
    once one was made and the walk returns, the cache is marked changed. *)
Lemma get_zone_id_loop_queries doms h r h' :
  _get_zone_id_loop env doms h = (r, h') ->
  exists queried rest,
    doms = queried ++ rest /\
    trace h' = rev (map EvZonesGet queried) ++ trace h /\
    (queried = [] -> _cache_changed h' = _cache_changed h) /\
    (queried <> [] -> (exists v, r = Returned v) -> _cache_changed h' = true).
Proof.
  revert h. induction doms as [|dom doms IH]; intros h Hrun; simpl in Hrun.
  - injection Hrun as <- <-. by exists [], [].
  - unfold bind in Hrun.
    destruct (zone_id_from_cache_frame env dom h) as (v & h1 & Hc & Ht1 & _ & Hf1 & _).
    rewrite Hc in Hrun. destruct (truthy v).
    + injection Hrun as <- <-. exists [], (dom :: doms). by rewrite Ht1, Hf1.
    + destruct (cf_zones_get_frame dom h1) as (r1 & h2 & Hg & Ht2 & _ & _ & Hf2).
      rewrite Hg in Hrun. destruct r1 as [[|z0 zs]| |].
      * destruct (zone_id_to_cache_frame dom None h2) as (t & h3 & Hs & Ht3 & _ & _ & Hf3).
        rewrite Hs in Hrun.
        apply IH in Hrun as (queried & rest & -> & Ht & Hnil & Hcons).
        exists (dom :: queried), rest. split; [done|]. split.
        { rewrite Ht, Ht3, Ht2, Ht1. simpl. by rewrite <- app_assoc. }
        split; [done|]. intros _ Hret.
        destruct queried as [|q queried]; [by rewrite Hnil|by apply Hcons].
      * destruct (zone_id_to_cache_frame dom (Some (z_id z0)) h2)
          as (t & h3 & Hs & Ht3 & _ & _ & Hf3).
        rewrite Hs in Hrun. injection Hrun as <- <-.
        exists [dom], doms. by rewrite Ht3, Ht2, Ht1.
      * injection Hrun as <- <-. exists [dom], doms. rewrite Ht2, Ht1.
        split; [done|]. split; [done|]. split; [done|]. by intros _ [v0 ?].
      * injection Hrun as <- <-. exists [dom], doms. rewrite Ht2, Ht1.
        split; [done|]. split; [done|]. split; [done|]. by intros _ [v0 ?].
Qed.

(** X3: the calls of a zone resolution are zone queries for the first
    candidates of the walk, one for each and in the order of the walk: at
    most one query for each label of the domain, none for any other name. *)
Theorem get_zone_id_queries_in_order domain h :
  exists queried rest,
    _iter_domain domain = queried ++ rest /\
    trace (snd (_get_zone_id env domain h))
      = rev (map EvZonesGet queried) ++ trace h /\
    length queried <= length (split_on "." domain).
Proof.
  destruct (_get_zone_id env domain h) as [r h'] eqn:Hrun.
  apply get_zone_id_loop_queries in Hrun as (queried & rest & Hd & Ht & _).
  exists queried, rest. split; [done|]. split; [done|].
  rewrite <- iter_domain_length, Hd, length_app. lia.
Qed.

(** X4: a zone resolution that returns has marked the cache changed exactly
    when it has sent the provider a query. *)
Theorem get_zone_id_dirty_iff_queried domain h v h' :
  _get_zone_id env domain h = (Returned v, h') ->
  (trace h' = trace h -> _cache_changed h' = _cache_changed h) /\
  (trace h' <> trace h -> _cache_changed h' = true).
Proof.
  intros Hrun.
  apply get_zone_id_loop_queries in Hrun as (queried & rest & _ & Ht & Hnil & Hcons).
  destruct queried as [|q queried].
  - split; [by intros _; apply Hnil|]. intros Hne. by rewrite Ht in Hne.
  - split; [|intros _; apply Hcons; [done|by eexists]].
    intros Heq%(f_equal length). rewrite Ht, length_app, length_rev in Heq.
    simpl in Heq. lia.
Qed.

(** An invariant [Inv] of the world that the clock and the zone queries
    keep, under which the provider knows none of [pre] and knows [dom]. *)
Lemma get_zone_id_loop_least_specific
    (Inv : W -> Prop) pre dom post (z : Zone) :
  (forall w, Inv w -> Inv (snd (time_time w))) ->
  (forall d w, Inv w -> Inv (snd (zones_get d w))) ->
  (forall d, d ∈ pre -> forall w, Inv w -> fst (zones_get d w) = ApiOk []) ->
  (forall w, Inv w -> exists zs, fst (zones_get dom w) = ApiOk (z :: zs)) ->
  dom ∉ pre ->
  forall h,
    Inv (world h) ->
    (forall d e, _zone_id_cache h !! d = Some e -> truthy (id e) = false) ->
    exists h' t,
      _get_zone_id_loop env (pre ++ dom :: post) h = (Returned (Some (z_id z)), h') /\
      _zone_id_cache h' !! dom = Some {| id := Some (z_id z); created := t |} /\
      (forall d, d ∈ pre -> exists e, _zone_id_cache h' !! d = Some e /\ id e = None) /\
      (forall d, d ∉ pre -> d <> dom -> _zone_id_cache h' !! d = _zone_id_cache h !! d) /\
      trace h' = EvZonesGet dom :: rev (map EvZonesGet pre) ++ trace h.
Proof.
  intros Itime Izones Hpre Hdom. induction pre as [|d0 pre IH]; intros Hnotin h Hinv Hcache.
  - (* the candidate the provider knows *)
    simpl. unfold bind at 1.
    pose proof (zone_id_from_cache_cases env dom h) as Hc.
    assert (exists v h1,
              _zone_id_from_cache env dom h = (Returned v, h1) /\ truthy v = false /\
              Inv (world h1) /\ trace h1 = trace h /\
              forall d, d <> dom -> _zone_id_cache h1 !! d = _zone_id_cache h !! d)
      as (v & h1 & Hl & Hv & Hinv1 & Ht1 & Hfr1).
    { destruct (_zone_id_cache h !! dom) as [e|] eqn:He.
      - pose proof (Itime _ Hinv) as Hi. destruct (time_time (world h)) as [t w].
        destruct (_ >=? _)%Z; eexists _, _; (split; [exact Hc|]).
        + split; [done|]. split; [done|]. split; [done|].
          intros d Hd. simpl. by rewrite lookup_delete_ne.
        + split; [by apply (Hcache dom)|]. by repeat split.
      - eexists _, _. split; [exact Hc|]. by repeat split. }
    rewrite Hl, Hv. unfold bind at 1, cf_zones_get.
    destruct (Hdom _ Hinv1) as [zs Hz]. pose proof (Izones dom _ Hinv1) as Hinv2.
    destruct (zones_get dom (world h1)) as [r w2]. simpl in Hz, Hinv2. subst r.
    unfold _zone_id_to_cache. simpl. destruct (time_time w2) as [t3 w3].
    eexists _, t3. split; [done|]. simpl. split; [by rewrite lookup_insert_eq|].
    split; [by intros d Hd%elem_of_nil|]. split.
    + intros d _ Hd. rewrite lookup_insert_ne by done. by apply Hfr1.
    + by rewrite Ht1.
  - (* a candidate the provider does not know *)
    apply not_elem_of_cons in Hnotin as [Hne Hnotin].
    simpl. unfold bind at 1.
    pose proof (zone_id_from_cache_cases env d0 h) as Hc.
    assert (exists v h1,
              _zone_id_from_cache env d0 h = (Returned v, h1) /\ truthy v = false /\
              Inv (world h1) /\ trace h1 = trace h /\
              (forall d e, _zone_id_cache h1 !! d = Some e -> truthy (id e) = false) /\
              forall d, d <> d0 -> _zone_id_cache h1 !! d = _zone_id_cache h !! d)
      as (v & h1 & Hl & Hv & Hinv1 & Ht1 & Hcache1 & Hfr1).
    { destruct (_zone_id_cache h !! d0) as [e|] eqn:He.
      - pose proof (Itime _ Hinv) as Hi. destruct (time_time (world h)) as [t w].
        destruct (_ >=? _)%Z; eexists _, _; (split; [exact Hc|]).
        + split; [done|]. split; [done|]. split; [done|]. simpl. split.
          * intros d e' [_ Hd]%lookup_delete_Some. eauto.
          * intros d Hd. by rewrite lookup_delete_ne.
        + split; [by apply (Hcache d0)|]. by repeat split.
      - eexists _, _. split; [exact Hc|]. by repeat split. }
    rewrite Hl, Hv. unfold bind at 1, cf_zones_get.
    pose proof (Hpre d0 (list_elem_of_here _ _) _ Hinv1) as Hz.
    pose proof (Izones d0 _ Hinv1) as Hinv2.
    destruct (zones_get d0 (world h1)) as [r w2]. simpl in Hz, Hinv2. subst r.
    unfold bind at 1, _zone_id_to_cache. simpl.
    pose proof (Itime _ Hinv2) as Hinv3. destruct (time_time w2) as [t3 w3].
    simpl in Hinv3.
    match goal with
    | |- context [_get_zone_id_loop env _ ?hh] => set (h3 := hh)
    end.
    destruct (IH (fun d Hd => Hpre d (list_elem_of_further _ _ _ Hd)) Hnotin h3)
      as (h' & t & Hrun & Hd & Hnone & Hframe & Ht).
    { done. }
    { subst h3. simpl. intros d e [[_ <-]|[_ Hd]]%lookup_insert_Some; [done|eauto]. }
    exists h', t. split; [done|]. split; [done|]. split; [|split].
    + intros d [->|Hin']%elem_of_cons; [|by apply Hnone].
      destruct (decide (d0 ∈ pre)) as [Hin|Hout]; [by apply Hnone|].
      rewrite (Hframe d0 Hout (not_eq_sym Hne)). subst h3. simpl.
      rewrite lookup_insert_eq. by eexists.
    + intros d [Hd0 Hout]%not_elem_of_cons Hdd. rewrite (Hframe d Hout Hdd).
      subst h3. simpl. rewrite lookup_insert_ne by done. by apply Hfr1.
    + rewrite Ht. subst h3. simpl. rewrite Ht1, <- app_assoc. done.
Qed.

(** X5: with no id in the cache, the resolver returns the first zone the
    provider lists for the least specific candidate it knows, also when a
    more specific candidate is a zone too; it has then queried that candidate
    and the ones before it, and cached the id and the negative lookups. *)
Theorem get_zone_id_least_specific_zone
    (Inv : W -> Prop) domain pre dom post (z : Zone) h :
  (forall w, Inv w -> Inv (snd (time_time w))) ->
  (forall d w, Inv w -> Inv (snd (zones_get d w))) ->
  _iter_domain domain = pre ++ dom :: post ->
  (forall d, d ∈ pre -> forall w, Inv w -> fst (zones_get d w) = ApiOk []) ->
  (forall w, Inv w -> exists zs, fst (zones_get dom w) = ApiOk (z :: zs)) ->
  Inv (world h) ->
  (forall d e, _zone_id_cache h !! d = Some e -> truthy (id e) = false) ->
  exists h' t,
    _get_zone_id env domain h = (Returned (Some (z_id z)), h') /\
    _zone_id_cache h' !! dom = Some {| id := Some (z_id z); created := t |} /\
    (forall d, d ∈ pre -> exists e, _zone_id_cache h' !! d = Some e /\ id e = None) /\
    trace h' = EvZonesGet dom :: rev (map EvZonesGet pre) ++ trace h.
Proof.
  intros Itime Izones Hwalk Hpre Hdom Hinv Hcache.
  assert (dom ∉ pre) as Hnotin.
  { pose proof (iter_domain_nodup domain) as Hnd.
    rewrite Hwalk in Hnd. apply NoDup_app in Hnd as (_ & Hdisj & _).
    intros Hin. apply (Hdisj dom Hin), list_elem_of_here. }
  destruct (get_zone_id_loop_least_specific Inv pre dom post z
              Itime Izones Hpre Hdom Hnotin h Hinv Hcache)
    as (h' & t & Hrun & Hd & Hnone & _ & Ht).
  exists h', t. unfold _get_zone_id. by rewrite Hwalk.
Qed.

(** *** The Propagation Gate, further *)

Lemma existsb_eqb_elem token (l : list string) :
  existsb (String.eqb token) l = true <-> token ∈ l.
Proof.
  rewrite existsb_exists, list_elem_of_In. split.
  - by intros (s & Hs & ->%String.eqb_eq).
  - intros Hin. exists token. by rewrite String.eqb_refl.
Qed.

(** The loop over the answer is decided by the first record that cannot be
    passed over: one with the token, or one that does not decode. *)
Lemma token_in_response_spec token response h :
  let decodable rdata := forallb utf8_valid (strings rdata) = true in
  let passed rdata := decodable rdata /\ token ∉ strings rdata in
  let r := fst (token_in_response token response h) in
  (r = Returned true <->
   exists pre rdata post,
     response = pre ++ rdata :: post /\ Forall passed pre /\
     decodable rdata /\ token ∈ strings rdata) /\
  (r = Raised UnicodeDecodeError <->
   exists pre rdata post,
     response = pre ++ rdata :: post /\ Forall passed pre /\ ~ decodable rdata) /\
  (r = Returned false <-> Forall passed response).
Proof.
  intros decodable passed. induction response as [|rd rest IH]; simpl.
  - split; [|split].
    + split; [done|]. by intros ([|??] & ? & ? & ? & _).
    + split; [done|]. by intros ([|??] & ? & ? & ? & _).
    + done.
  - unfold decode_all. destruct (forallb utf8_valid (strings rd)) eqn:Hdec.
    + destruct (existsb (String.eqb token) (strings rd)) eqn:Htok; simpl.
      * apply existsb_eqb_elem in Htok. split; [|split].
        -- split; [|done]. intros _. by exists [], rd, rest.
        -- split; [done|]. intros ([|rd' pre] & rd2 & post & Heq & Hpre & Hbad).
           ++ injection Heq as <- _. by destruct Hbad.
           ++ injection Heq as <- _. apply Forall_cons in Hpre as [[_ Hno] _].
              by destruct Hno.
        -- split; [done|]. intros [[_ Hno] _]%Forall_cons. by destruct Hno.
      * assert (token ∉ strings rd) as Hno.
        { intros Hin%existsb_eqb_elem. congruence. }
        destruct IH as (IHt & IHr & IHf). split; [|split].
        -- rewrite IHt. split.
           ++ intros (pre & rd2 & post & -> & Hpre & Hd & Hin).
              exists (rd :: pre), rd2, post. split; [done|].
              split; [by constructor|done].
           ++ intros ([|rd' pre] & rd2 & post & Heq & Hpre & Hd & Hin).
              ** injection Heq as <- _. by destruct Hno.
              ** injection Heq as <- ->. apply Forall_cons in Hpre as [_ Hpre].
                 by exists pre, rd2, post.
        -- rewrite IHr. split.
           ++ intros (pre & rd2 & post & -> & Hpre & Hbad).
              exists (rd :: pre), rd2, post. split; [done|].
              split; [by constructor|done].
           ++ intros ([|rd' pre] & rd2 & post & Heq & Hpre & Hbad).
              ** injection Heq as <- _. by destruct Hbad.
              ** injection Heq as <- ->. apply Forall_cons in Hpre as [_ Hpre].
                 by exists pre, rd2, post.
        -- rewrite IHf. split.
           ++ intros Hrest. by constructor.
           ++ by intros [_ Hrest]%Forall_cons.
    + simpl. assert (~ decodable rd) as Hbad by (unfold decodable; congruence).
      split; [|split].
      * split; [done|]. intros ([|rd' pre] & rd2 & post & Heq & Hpre & Hd & _).
        -- injection Heq as <- _. by destruct Hbad.
        -- injection Heq as <- _. apply Forall_cons in Hpre as [[Hd' _] _].
           by destruct Hbad.
      * split; [|done]. intros _. by exists [], rd, rest.
      * split; [done|]. intros [[Hd _] _]%Forall_cons. by destruct Hbad.
Qed.

(** X6: one poll. Without [dns.resolver] loaded it raises [AttributeError]
    before any query. Otherwise it makes one TXT query, through the system
    resolver when [CF_DNS_SERVERS] is unset or empty; a [DNSException] gives
    [False] and any other error of the resolver goes through; on an answer
    the records are taken in order, each decoded whole: [True] when the
    first record not passed over holds the token, [UnicodeDecodeError] when
    it does not decode, [False] when every record decodes without the
    token. *)
Theorem dns_propagated_outcomes name token h :
  let decodable rdata := forallb utf8_valid (strings rdata) = true in
  let passed rdata := decodable rdata /\ token ∉ strings rdata in
  if dns_resolver_loaded (world h) then
    exists nameservers answer w,
      resolver_query nameservers name "TXT" (world h) = (answer, w) /\
      (truthy (CF_DNS_SERVERS env) = false -> nameservers = None) /\
      exists r,
        _dns_propagated env name token h
        = (r, emit (EvDnsQuery nameservers name answer) (set_world w h)) /\
        match answer with
        | DNSException => r = Returned false
        | DnsOtherError => r = Raised OtherError
        | DnsAnswer rdatas =>
            (r = Returned true <->
             exists pre rdata post,
               rdatas = pre ++ rdata :: post /\ Forall passed pre /\
               decodable rdata /\ token ∈ strings rdata) /\
            (r = Raised UnicodeDecodeError <->
             exists pre rdata post,
               rdatas = pre ++ rdata :: post /\ Forall passed pre /\
               ~ decodable rdata) /\
            (r = Returned false <-> Forall passed rdatas)
        end
  else _dns_propagated env name token h = (Raised AttributeError, h).
Proof.
  intros decodable passed. pose proof (dns_propagated_cases env name token h) as Hc.
  destruct (dns_resolver_loaded (world h)); [|done].
  destruct Hc as (ns & answer & w & Hq & Hns & Hc).
  exists ns, answer, w. split; [done|]. split; [done|]. rewrite Hc.
  destruct answer as [rdatas| |]; [|by eexists..].
  eexists. split; [done|]. apply token_in_response_spec.
Qed.

Lemma dns_propagated_false_trace name token h h1 :
  _dns_propagated env name token h = (Returned false, h1) ->
  exists nameservers answer, trace h1 = EvDnsQuery nameservers name answer :: trace h.
Proof.
  intros Hno. pose proof (dns_propagated_cases env name token h) as Hc.
  destruct (dns_resolver_loaded (world h)); [|by rewrite Hc in Hno].
  destruct Hc as (ns & answer & w & _ & _ & Hc). rewrite Hc in Hno.
  apply (f_equal snd) in Hno. exists ns, answer.
  destruct answer; simpl in Hno; by subst h1.
Qed.

Lemma polls_events name token k h h' :
  polls env name token k h h' ->
  exists evs,
    trace h' = evs ++ trace h /\
    List.filter (fun e => negb (is_dns_query e)) evs = repeat (EvSleep 10) k /\
    length (List.filter is_dns_query evs) = S k.
Proof.
  induction 1 as [h h' Hok|k h h1 h' Hno _ (evs & Ht & Hsleep & Hquery)].
  - apply dns_propagated_true in Hok as (ns & rdatas & Ht & _).
    by exists [EvDnsQuery ns name (DnsAnswer rdatas)].
  - apply dns_propagated_false_trace in Hno as (ns & answer & Ht1).
    exists (evs ++ [EvSleep 10; EvDnsQuery ns name answer]).
    simpl in Ht. rewrite Ht, Ht1, <- app_assoc. split; [done|].
    rewrite !List.filter_app, Hsleep, length_app, Hquery. simpl.
    split; [|lia]. by rewrite <- List.repeat_cons.
Qed.

(** X7: when the wait returns after [k] failed polls it has made [k+1]
    queries and slept [k] times, ten seconds each, and nothing else; more
    fuel gives the same run. *)
Theorem wait_propagated_shape fuel name token h h' :
  wait_propagated env fuel name token h = (Returned tt, h') ->
  exists k evs,
    k < fuel /\
    trace h' = evs ++ trace h /\
    List.filter (fun e => negb (is_dns_query e)) evs = repeat (EvSleep 10) k /\
    length (List.filter is_dns_query evs) = S k /\
    forall fuel', fuel <= fuel' ->
      wait_propagated env fuel' name token h = (Returned tt, h').
Proof.
  intros Hrun. apply wait_propagated_sound in Hrun as (k & Hk & Hp).
  destruct (polls_events name token k h h' Hp) as (evs & Ht & Hsleep & Hquery).
  exists k, evs. repeat (split; [done|]).
  intros fuel' Hle. apply wait_propagated_complete with k; [done|lia].
Qed.

(** *** The Record Reconciler, further *)

(** X8: when the lookup of [_clean_challenge] finds records, the action
    sends one delete call, for the id of the first of them in the resolved
    zone, and returns normally whether the provider accepts it or not. *)
Theorem clean_deletes_first_match
    domain token_filename token_value h zone_id h1 r rs w2 :
  let record_name := ("_acme-challenge." ++ domain)%string in
  _get_zone_id env domain h = (Returned zone_id, h1) ->
  dns_records_get zone_id "TXT" record_name token_value (world h1)
    = (ApiOk (r :: rs), w2) ->
  r_id r <> "" ->
  exists h',
    _clean_challenge env domain token_filename token_value h = (Returned tt, h') /\
    trace h' = EvRecordsDelete zone_id (r_id r)
                 :: EvRecordsGet zone_id record_name token_value :: trace h1.
Proof.
  intros record_name Hrun Hget Hid. unfold _clean_challenge.
  rewrite (bind_returned _ _ _ _ _ Hrun). fold record_name.
  pose proof (get_txt_record_id_cases zone_id record_name token_value h1) as Hl.
  rewrite Hget in Hl. rewrite (bind_returned _ _ _ _ _ Hl).
  apply String.eqb_neq in Hid. simpl. rewrite Hid. simpl.
  unfold bind, cf_dns_records_delete. simpl.
  destruct (dns_records_delete _ _ _) as [[[]|] w3]; by eexists.
Qed.

(** X9: when the lookup of [_deploy_challenge] finds no record (or one with
    an empty id), the action sends exactly one creation call, to the
    resolved zone, for a TXT record named [_acme-challenge.<domain>] whose
    content is the token and whose TTL is 120, however the wait ends. *)
Theorem deploy_creates_once
    fuel domain token_filename token_value h zone_id h1 record_id h2 :
  let record_name := ("_acme-challenge." ++ domain)%string in
  _get_zone_id env domain h = (Returned zone_id, h1) ->
  _get_txt_record_id zone_id record_name token_value h1 = (Returned record_id, h2) ->
  truthy record_id = false ->
  List.filter is_post
    (trace (snd (_deploy_challenge env fuel domain token_filename token_value h)))
  = EvRecordsPost zone_id
      {| new_name := record_name; new_type := "TXT";
         new_content := token_value; new_ttl := 120 |}
      :: List.filter is_post (trace h).
Proof.
  intros record_name Hrun Hl Hrid. unfold _deploy_challenge.
  rewrite (bind_returned _ _ _ _ _ Hrun). fold record_name.
  rewrite (bind_returned _ _ _ _ _ Hl), Hrid.
  pose proof (get_txt_record_id_trace zone_id record_name token_value h1) as Ht2.
  rewrite Hl in Ht2. simpl in Ht2.
  assert (List.filter is_post (trace h2) = List.filter is_post (trace h)) as Hbefore.
  { rewrite Ht2. simpl. eapply get_zone_id_filter; [|exact Hrun]. by intros []. }
  unfold bind, cf_dns_records_post.
  destruct (dns_records_post _ _ _) as [[created|] w3].
  - match goal with
    | |- context [wait_propagated env fuel ?n ?t ?hh] =>
        destruct (emits_wait_propagated env fuel n t hh) as (evs & Hevs & Hall)
    end.
    rewrite Hevs, List.filter_app.
    rewrite (filter_none is_gate is_post evs) by (done || by intros []).
    simpl. by rewrite Hbefore.
  - simpl. by rewrite Hbefore.
Qed.

(** X14: an error of the provider on a read is not caught: on the zone
    query of a candidate that is not in the cache [_get_zone_id] ends in
    [CloudFlareAPIError] right after the query, and on the record lookup so
    do both actions, no creation or deletion attempted. *)
Theorem provider_read_errors_are_uncaught
    fuel domain token_filename token_value h :
  (forall dom rest w,
     _iter_domain domain = dom :: rest ->
     _zone_id_cache h !! dom = None ->
     zones_get dom (world h) = (ApiError, w) ->
     _get_zone_id env domain h
     = (Raised CloudFlareAPIError, emit (EvZonesGet dom) (set_world w h))) /\
  (forall zone_id h1 w2,
     let record_name := ("_acme-challenge." ++ domain)%string in
     let h2 := emit (EvRecordsGet zone_id record_name token_value) (set_world w2 h1) in
     _get_zone_id env domain h = (Returned zone_id, h1) ->
     dns_records_get zone_id "TXT" record_name token_value (world h1) = (ApiError, w2) ->
     _deploy_challenge env fuel domain token_filename token_value h
       = (Raised CloudFlareAPIError, h2) /\
     _clean_challenge env domain token_filename token_value h
       = (Raised CloudFlareAPIError, h2)).
Proof.
  split.
  - intros dom rest w Hwalk Hmiss Hq. unfold _get_zone_id. rewrite Hwalk. simpl.
    pose proof (zone_id_from_cache_cases env dom h) as Hc. rewrite Hmiss in Hc.
    rewrite (bind_returned _ _ _ _ _ Hc). simpl.
    unfold bind, cf_zones_get. by rewrite Hq.
  - intros zone_id h1 w2 record_name h2 Hrun Hget.
    pose proof (get_txt_record_id_cases zone_id record_name token_value h1) as Hl.
    rewrite Hget in Hl. unfold _deploy_challenge, _clean_challenge.
    rewrite !(bind_returned _ _ _ _ _ Hrun). fold record_name.
    by rewrite !(bind_raised _ _ _ _ _ Hl).
Qed.

(** *** The Zone Cache, further *)

(** X10: a lookup adds nothing to the cache and changes no entry: the only
    thing it can do is delete the entry of the domain it looks up, when that
    entry has expired; a store changes the entry of its domain only. *)
Theorem cache_ops_frame domain v h :
  (forall other,
     _zone_id_cache (snd (_zone_id_from_cache env domain h)) !! other
       = _zone_id_cache h !! other \/
     other = domain /\
     _zone_id_cache (snd (_zone_id_from_cache env domain h)) !! other = None /\
     exists e, _zone_id_cache h !! domain = Some e /\
       (fst (time_time (world h)) - created e >= cachetime env)%Z) /\
  (forall other, other <> domain ->
     _zone_id_cache (snd (_zone_id_to_cache domain v h)) !! other
       = _zone_id_cache h !! other).
Proof.
  split.
  - intros other. pose proof (zone_id_from_cache_cases env domain h) as Hc.
    destruct (_zone_id_cache h !! domain) as [e|] eqn:He; [|rewrite Hc; by left].
    destruct (time_time (world h)) as [t w] eqn:Ht.
    destruct (Z.geb_spec (t - created e) (cachetime env)); rewrite Hc; simpl;
      [|by left].
    destruct (decide (other = domain)) as [->|Hne].
    + right. rewrite lookup_delete_eq. split; [done|]. split; [done|].
      exists e. split; [done|]. lia.
    + left. by rewrite lookup_delete_ne.
  - intros other Hne. unfold _zone_id_to_cache.
    destruct (time_time (world h)) as [t w]. simpl. by rewrite lookup_insert_ne.
Qed.

(** A save of a changed cache: the file it leaves, and how it ends. *)
Lemma save_cache_dirty fname h :
  _cache_changed h = true ->
  exists r m h',
    _save_cache env fname h = (r, h') /\
    files h'
    = <[fname := {| account := CF_API_EMAIL env; zone := _zone_id_cache h;
                    mode := m |}]> (files h) /\
    trace h' = trace h /\ _zone_id_cache h' = _zone_id_cache h /\
    (r = Returned tt -> cachefmode env = Some m) /\
    (r <> Returned tt ->
     m = match files h !! fname with
         | Some f => mode f
         | None => new_file_mode (world h)
         end /\
     (cachefmode env = None \/
      exists m', cachefmode env = Some m' /\ fst (os_chmod fname m' (world h)) = false)).
Proof.
  intros Hdirty. unfold _save_cache. rewrite Hdirty. cbn [negb].
  destruct (cachefmode env) as [m'|].
  - destruct (os_chmod fname m' (world h)) as [[|] w] eqn:Hch.
    + eexists _, m', _. split; [done|]. by repeat split.
    + eexists _, _, _. split; [done|]. split; [done|]. split; [done|].
      split; [done|]. split; [done|]. intros _. split; [done|]. right.
      exists m'. by rewrite Hch.
  - eexists _, _, _. split; [done|]. split; [done|]. split; [done|].
    split; [done|]. split; [done|]. intros _. split; [done|]. by left.
Qed.

Lemma save_cache_clean fname h :
  _cache_changed h = false -> _save_cache env fname h = (Returned tt, h).
Proof. intros Hclean. unfold _save_cache. by rewrite Hclean. Qed.



(** *** The dispatcher *)

Section Keeps.

(** A component of the state that does not depend on the world or on the
    trace. *)
Context {X : Type} (f : State W -> X).
Hypothesis f_world : forall w h, f (set_world w h) = f h.
Hypothesis f_emit : forall e h, f (emit e h) = f h.

Lemma keeps_ret {A} (a : A) : keeps (W := W) f (ret a).
Proof. by intros h. Qed.

Lemma keeps_bind {A B} (m : M W A) (k : A -> M W B) :
  keeps f m -> (forall a, keeps f (k a)) -> keeps f (bind m k).
Proof.
  intros Hm Hk h. unfold bind. pose proof (Hm h) as Hmh.
  destruct (m h) as [[a| |] h1]; simpl in Hmh; [|done..].
  by rewrite (Hk a h1).
Qed.

Lemma keeps_get_txt_record_id zone_id name token :
  keeps f (_get_txt_record_id zone_id name token).
Proof.
  intros h. unfold _get_txt_record_id, bind, cf_dns_records_get.
  destruct (dns_records_get _ _ _ _ _) as [[[|r rs]|] w]; simpl;
    by rewrite f_emit, f_world.
Qed.

Lemma keeps_post zone_id data : keeps f (cf_dns_records_post zone_id data).
Proof.
  intros h. unfold cf_dns_records_post.
  destruct (dns_records_post _ _ _) as [r w]. simpl. by rewrite f_emit, f_world.
Qed.

Lemma keeps_delete zone_id record : keeps f (cf_dns_records_delete zone_id record).
Proof.
  intros h. unfold cf_dns_records_delete.
  destruct (dns_records_delete _ _ _) as [r w]. simpl. by rewrite f_emit, f_world.
Qed.

Lemma keeps_dns_propagated name token : keeps f (_dns_propagated env name token).
Proof.
  intros h. pose proof (dns_propagated_cases env name token h) as Hc.
  destruct (dns_resolver_loaded (world h)); [|by rewrite Hc].
  destruct Hc as (ns & answer & w & _ & _ & ->).
  destruct answer; simpl; by rewrite f_emit, f_world.
Qed.

Lemma keeps_wait_propagated fuel name token :
  keeps f (wait_propagated env fuel name token).
Proof.
  induction fuel as [|fuel IH]; simpl; [by intros h|].
  apply keeps_bind; [apply keeps_dns_propagated|]. intros [|]; [apply keeps_ret|].
  apply keeps_bind; [|done]. intros h. unfold sleep. simpl.
  by rewrite f_emit, f_world.
Qed.

(** Past the zone resolution the two actions leave [f] alone. *)
Lemma deploy_keeps fuel domain token_filename token_value h :
  f (snd (_deploy_challenge env fuel domain token_filename token_value h))
  = f (snd (_get_zone_id env domain h)).
Proof.
  unfold _deploy_challenge, bind at 1.
  destruct (_get_zone_id env domain h) as [[zone_id| |] h1]; [|done..].
  simpl snd at 2.
  match goal with |- f (snd (?m h1)) = _ => assert (keeps f m) as Hk end; [|apply Hk].
  apply keeps_bind; [apply keeps_get_txt_record_id|]. intros rid.
  destruct (truthy rid); [apply keeps_ret|].
  apply keeps_bind; [apply keeps_post|].
  intros [created|]; [apply keeps_wait_propagated|apply keeps_ret].
Qed.

Lemma clean_keeps domain token_filename token_value h :
  f (snd (_clean_challenge env domain token_filename token_value h))
  = f (snd (_get_zone_id env domain h)).
Proof.
  unfold _clean_challenge, bind at 1.
  destruct (_get_zone_id env domain h) as [[zone_id| |] h1]; [|done..].
  simpl snd at 2.
  match goal with |- f (snd (?m h1)) = _ => assert (keeps f m) as Hk end; [|apply Hk].
  apply keeps_bind; [apply keeps_get_txt_record_id|]. intros rid.
  destruct (negb (truthy rid)); [apply keeps_ret|].
  apply keeps_bind; [apply keeps_delete|]. intros [[]|]; apply keeps_ret.
Qed.

End Keeps.

Lemma load_cache_returns fname h :
  exists h0,
    _load_cache env fname h = (Returned tt, h0) /\
    files h0 = files h /\ trace h0 = trace h.
Proof.
  unfold _load_cache. destruct (files h !! fname) as [cache_file|]; [|by eexists].
  destruct (bool_decide _); by eexists.
Qed.

(** What the dispatcher needs to know of an action [m]. *)
Lemma action_run (m : M W unit) domain :
  (forall h, files (snd (m h)) = files (snd (_get_zone_id env domain h))) ->
  (forall h, _zone_id_cache (snd (m h)) = _zone_id_cache (snd (_get_zone_id env domain h))) ->
  (forall h, _cache_changed (snd (m h)) = _cache_changed (snd (_get_zone_id env domain h))) ->
  (forall h, List.filter is_zones_get (trace (snd (m h)))
             = List.filter is_zones_get (trace (snd (_get_zone_id env domain h)))) ->
  (forall h, fst (m h) = Returned tt -> exists v, fst (_get_zone_id env domain h) = Returned v) ->
  forall fname h,
    let run := bind (_load_cache env fname) (fun _ => bind m (fun _ => _save_cache env fname)) h in
    (forall f, f <> fname -> files (snd run) !! f = files h !! f) /\
    (files (snd run) <> files h ->
     exists ha,
       m (snd (_load_cache env fname h)) = (Returned tt, ha) /\
       _cache_changed ha = true) /\
    (fst run = Returned tt ->
     List.filter is_zones_get (trace (snd run)) <> List.filter is_zones_get (trace h) ->
     exists md,
       cachefmode env = Some md /\
       files (snd run) !! fname
       = Some {| account := CF_API_EMAIL env; zone := _zone_id_cache (snd run);
                 mode := md |}).
Proof.
  intros Hfiles Hcache Hflag Hzones Hret fname h run. subst run.
  destruct (load_cache_returns fname h) as (h0 & Hload & Hf0 & Ht0).
  rewrite (bind_returned _ _ _ _ _ Hload), Hload. cbn [snd].
  assert (files (snd (m h0)) = files h) as Hfm.
  { rewrite Hfiles. destruct (_get_zone_id env domain h0) as [r h1] eqn:Hrun.
    apply get_zone_id_inv in Hrun as (_ & Hf1 & _). simpl. congruence. }
  unfold bind. specialize (Hret h0). specialize (Hcache h0). specialize (Hflag h0).
  specialize (Hzones h0).
  destruct (m h0) as [[[]| |] ha]; simpl in *.
  2,3: split; [by intros f _; rewrite Hfm|]; split; [by intros []|done].
  destruct (_cache_changed ha) eqn:Hdirty.
  - destruct (save_cache_dirty fname ha Hdirty)
      as (r & md & h' & Hsave & Hwritten & Ht' & Hc' & Hmode & _).
    rewrite Hsave. cbn [fst snd]. split; [|split].
    + intros f Hf. by rewrite Hwritten, lookup_insert_ne, Hfm.
    + intros _. by exists ha.
    + intros -> _. exists md. split; [by apply Hmode|].
      by rewrite Hwritten, lookup_insert_eq, Hc'.
  - rewrite (save_cache_clean fname ha Hdirty). cbn [fst snd].
    split; [by intros f _; rewrite Hfm|]. split; [by intros []|].
    intros _ Hnew. exfalso.
    destruct (Hret eq_refl) as [v Hv].
    destruct (_get_zone_id env domain h0) as [r h1] eqn:Hrun. simpl in *. subst r.
    apply get_zone_id_loop_queries in Hrun as (queried & rest & _ & Ht1 & Hnil & Hcons).
    destruct queried as [|q queried].
    + apply Hnew. by rewrite Hzones, Ht1, Ht0.
    + assert (_cache_changed h1 = true) as Hset
        by (apply Hcons; [done|by eexists]).
      congruence.
Qed.

Lemma deploy_zone_queries fuel domain token_filename token_value h :
  List.filter is_zones_get
    (trace (snd (_deploy_challenge env fuel domain token_filename token_value h)))
  = List.filter is_zones_get (trace (snd (_get_zone_id env domain h))).
Proof.
  destruct (_get_zone_id env domain h) as [[zone_id| |] h1] eqn:Hrun.
  - destruct (deploy_after_lookup env fuel domain token_filename token_value _ _ _ Hrun)
      as (evs & -> & Hall).
    rewrite List.filter_app. simpl.
    by rewrite (filter_none (fun e => is_post e || is_gate e) is_zones_get evs)
      by (done || by intros []).
  - unfold _deploy_challenge. by rewrite (bind_raised _ _ _ _ _ Hrun).
  - unfold _deploy_challenge, bind. by rewrite Hrun.
Qed.

Lemma clean_zone_queries domain token_filename token_value h :
  List.filter is_zones_get
    (trace (snd (_clean_challenge env domain token_filename token_value h)))
  = List.filter is_zones_get (trace (snd (_get_zone_id env domain h))).
Proof.
  destruct (_get_zone_id env domain h) as [[zone_id| |] h1] eqn:Hrun.
  - destruct (clean_after_lookup env domain token_filename token_value _ _ _ Hrun)
      as (evs & -> & Hall).
    rewrite List.filter_app. simpl.
    by rewrite (filter_none is_delete is_zones_get evs) by (done || by intros []).
  - unfold _clean_challenge. by rewrite (bind_raised _ _ _ _ _ Hrun).
  - unfold _clean_challenge, bind. by rewrite Hrun.
Qed.

Lemma deploy_returned_resolved fuel domain token_filename token_value h :
  fst (_deploy_challenge env fuel domain token_filename token_value h) = Returned tt ->
  exists v, fst (_get_zone_id env domain h) = Returned v.
Proof.
  unfold _deploy_challenge, bind at 1.
  destruct (_get_zone_id env domain h) as [[zone_id| |] h1]; [by eexists|done..].
Qed.

Lemma clean_returned_resolved domain token_filename token_value h :
  fst (_clean_challenge env domain token_filename token_value h) = Returned tt ->
  exists v, fst (_get_zone_id env domain h) = Returned v.
Proof.
  unfold _clean_challenge, bind at 1.
  destruct (_get_zone_id env domain h) as [[zone_id| |] h1]; [by eexists|done..].
Qed.

(** The dispatcher on a known action with its three arguments. *)
Lemma main_known fuel op domain token_filename token_value h :
  op = "deploy_challenge" \/ op = "clean_challenge" ->
  let fname := default "/etc/dehydrated/cloudflare.json" (CF_CACHEFILE env) in
  let run := main env fuel [op; domain; token_filename; token_value] h in
  let action :=
    if String.eqb op "deploy_challenge"
    then _deploy_challenge env fuel domain token_filename token_value
    else _clean_challenge env domain token_filename token_value in
  (forall f, f <> fname -> files (snd run) !! f = files h !! f) /\
  (files (snd run) <> files h ->
   exists ha,
     action (snd (_load_cache env fname h)) = (Returned tt, ha) /\
     _cache_changed ha = true) /\
  (fst run = Returned tt ->
   List.filter is_zones_get (trace (snd run)) <> List.filter is_zones_get (trace h) ->
   exists md,
     cachefmode env = Some md /\
     files (snd run) !! fname
     = Some {| account := CF_API_EMAIL env; zone := _zone_id_cache (snd run);
               mode := md |}).
Proof.
  intros [-> | ->] fname run action; subst run action; unfold main;
    simpl String.eqb; cbv iota.
  - apply (action_run (_deploy_challenge env fuel domain token_filename token_value)
             domain).
    + intros h0. by apply (deploy_keeps files).
    + intros h0. by apply (deploy_keeps _zone_id_cache).
    + intros h0. by apply (deploy_keeps _cache_changed).
    + apply deploy_zone_queries.
    + apply deploy_returned_resolved.
  - apply (action_run (_clean_challenge env domain token_filename token_value) domain).
    + intros h0. by apply (clean_keeps files).
    + intros h0. by apply (clean_keeps _zone_id_cache).
    + intros h0. by apply (clean_keeps _cache_changed).
    + apply clean_zone_queries.
    + apply clean_returned_resolved.
Qed.

(** X12: a run of the dispatcher that returns normally after sending the
    provider at least one zone query leaves the cache file holding the
    account and the cache as it is in memory at the end of the run, under
    the mode [CF_CACHEFMODE] or 0600. *)
Theorem main_saves_after_zone_queries
    fuel op domain token_filename token_value h h' :
  op = "deploy_challenge" \/ op = "clean_challenge" ->
  main env fuel [op; domain; token_filename; token_value] h = (Returned tt, h') ->
  List.filter is_zones_get (trace h') <> List.filter is_zones_get (trace h) ->
  exists md,
    cachefmode env = Some md /\
    files h' !! default "/etc/dehydrated/cloudflare.json" (CF_CACHEFILE env)
    = Some {| account := CF_API_EMAIL env; zone := _zone_id_cache h';
              mode := md |}.
Proof.
  intros Hop Hrun Hnew.
  destruct (main_known fuel op domain token_filename token_value h Hop)
    as (_ & _ & Hsaved).
  rewrite Hrun in Hsaved. by apply Hsaved.
Qed.

(** X13: the dispatcher writes no file but the cache file, and changes
    that one only when the action has returned normally with the cache
    marked changed: an action that ends in an exception leaves every file as
    it was. An unknown action changes nothing at all, an empty argument list
    is an [IndexError]. *)
Theorem main_files_frame fuel argv h :
  let fname := default "/etc/dehydrated/cloudflare.json" (CF_CACHEFILE env) in
  let run := main env fuel argv h in
  (forall f, f <> fname -> files (snd run) !! f = files h !! f) /\
  (files (snd run) <> files h ->
   exists op domain token_filename token_value ha,
     argv = [op; domain; token_filename; token_value] /\
     (op = "deploy_challenge" \/ op = "clean_challenge") /\
     (if String.eqb op "deploy_challenge"
      then _deploy_challenge env fuel domain token_filename token_value
      else _clean_challenge env domain token_filename token_value)
       (snd (_load_cache env fname h)) = (Returned tt, ha) /\
     _cache_changed ha = true) /\
  (forall op args,
     argv = op :: args -> op <> "deploy_challenge" -> op <> "clean_challenge" ->
     run = (Returned tt, h)) /\
  (argv = [] -> run = (Raised IndexError, h)).
Proof.
  intros fname run.
  assert (forall m : M W unit,
            (forall h0, files (snd (m h0)) = files h0) ->
            files (snd (bind (_load_cache env fname) (fun _ => m) h)) = files h)
    as Hload.
  { intros m Hm. destruct (load_cache_returns fname h) as (h0 & Hl & Hf0 & _).
    by rewrite (bind_returned _ _ _ _ _ Hl), Hm. }
  assert (forall op args,
            argv = op :: args ->
            op = "deploy_challenge" \/ op = "clean_challenge" ->
            (forall d tf tok, args <> [d; tf; tok]) ->
            files (snd run) = files h) as Harity.
  { intros op args -> Hop Hargs. subst run. unfold main. fold fname.
    assert (("clean_challenge" =? "deploy_challenge")%string = false) as Hcd
      by reflexivity.
    destruct Hop as [-> | ->]; rewrite ?Hcd, ?String.eqb_refl;
      destruct args as [|d [|tf [|tok [|extra args]]]];
      first [ rewrite (Hload (raise TypeError)) by done; done
            | exfalso; by eapply Hargs ]. }
  split; [|split; [|split]].
  - subst run. destruct argv as [|op args]; [done|].
    destruct (String.eqb op "deploy_challenge") eqn:Hd;
      [|destruct (String.eqb op "clean_challenge") eqn:Hc].
    3: { intros f _. unfold main. by rewrite Hd, Hc. }
    all: assert (op = "deploy_challenge" \/ op = "clean_challenge") as Hop
      by (apply String.eqb_eq in Hd || apply String.eqb_eq in Hc; auto).
    all: destruct args as [|d [|tf [|tok [|extra args]]]];
      try (intros f _; by rewrite (Harity op _ eq_refl Hop)).
    all: by destruct (main_known fuel op d tf tok h Hop) as (Ha & _ & _).
  - intros Hchanged. subst run. destruct argv as [|op args]; [done|].
    destruct (String.eqb op "deploy_challenge") eqn:Hd;
      [|destruct (String.eqb op "clean_challenge") eqn:Hc].
    3: { exfalso. apply Hchanged. unfold main. by rewrite Hd, Hc. }
    all: assert (op = "deploy_challenge" \/ op = "clean_challenge") as Hop
      by (apply String.eqb_eq in Hd || apply String.eqb_eq in Hc; auto).
    all: destruct args as [|d [|tf [|tok [|extra args]]]];
      try (exfalso; apply Hchanged; by apply (Harity op _ eq_refl Hop)).
    all: destruct (main_known fuel op d tf tok h Hop) as (_ & Hb & _).
    all: destruct (Hb Hchanged) as (ha & Hact & Hdirty).
    all: by exists op, d, tf, tok, ha.
  - intros op args -> Hd Hc. subst run. unfold main.
    apply String.eqb_neq in Hd, Hc. by rewrite Hd, Hc.
  - by intros ->.
Qed.

End HookExtras.


Lemma get_zone_id_dirty_iff_queried_witness :
  let h := __init__ ∅ Sim.w0 in
  let h' := snd (_get_zone_id Sim.env0 "test.example.com" h) in
  trace h' <> trace h /\ _cache_changed h' = true.
Proof.
  intros h h'.
  assert (_get_zone_id Sim.env0 "test.example.com" h = (Returned (Some "Z1"), h'))
    as Hrun by (vm_compute; reflexivity).
  assert (trace h' <> trace h) as Hne by (vm_compute; discriminate).
  split; [exact Hne|].
  exact (proj2 (get_zone_id_dirty_iff_queried Sim.env0 "test.example.com" h _ h' Hrun)
           Hne).
Defined.

(** X5 on a run: the account holds [example.com] and [sub.example.com]. *)
Lemma get_zone_id_least_specific_zone_witness :
  exists h' t,
    _get_zone_id Sim.env0 "www.sub.example.com" (__init__ ∅ Sim.w_nested)
      = (Returned (Some "Z1"), h') /\
    _zone_id_cache h' !! "example.com" = Some {| id := Some "Z1"; created := t |} /\
    (forall d, d ∈ ["com"] -> exists e, _zone_id_cache h' !! d = Some e /\ id e = None) /\
    trace h' = (EvZonesGet "example.com" :: rev (map EvZonesGet ["com"])
                  ++ trace (__init__ ∅ Sim.w_nested))%list.
Proof.
  apply (get_zone_id_least_specific_zone Sim.env0 (Sim.same_zones Sim.w_nested)
           "www.sub.example.com" ["com"] "example.com"
           ["sub.example.com"; "www.sub.example.com"]
           {| z_id := "Z1"; z_name := "example.com" |}).
  - intros w Hw. exact Hw.
  - intros d w Hw. exact Hw.
  - vm_compute. reflexivity.
  - intros d ->%list_elem_of_singleton w Hw. simpl. unfold Sim.get_zones. simpl.
    rewrite Hw. reflexivity.
  - intros w Hw. exists []. simpl. unfold Sim.get_zones. simpl.
    rewrite Hw. reflexivity.
  - reflexivity.
  - intros d e. simpl. by rewrite lookup_empty.
Defined.

(** X7 on a run: the third query finds the token. *)
Lemma wait_propagated_shape_witness :
  let name := "_acme-challenge.test.example.com" in
  let h := __init__ ∅ Sim.w0 in
  let h' := snd (wait_propagated Sim.env0 5 name "tok" h) in
  exists k evs,
    k < 5 /\
    trace h' = (evs ++ trace h)%list /\
    List.filter (fun e => negb (is_dns_query e)) evs = repeat (EvSleep 10) k /\
    length (List.filter is_dns_query evs) = S k /\
    forall fuel', 5 <= fuel' ->
      wait_propagated Sim.env0 fuel' name "tok" h = (Returned tt, h').
Proof.
  intros name h h'.
  assert (wait_propagated Sim.env0 5 name "tok" h = (Returned tt, h')) as Hrun
    by (vm_compute; reflexivity).
  exact (wait_propagated_shape Sim.env0 5 name "tok" h h' Hrun).
Defined.

(** X8 on a run: the record deployed a moment ago is cleaned. *)
Lemma clean_deletes_first_match_witness :
  let name := "_acme-challenge.test.example.com" in
  let h := snd (_deploy_challenge Sim.env0 5 "test.example.com" "f" "tok"
                  (__init__ ∅ Sim.w0)) in
  let h1 := snd (_get_zone_id Sim.env0 "test.example.com" h) in
  exists h',
    _clean_challenge Sim.env0 "test.example.com" "f" "tok" h = (Returned tt, h') /\
    trace h' = EvRecordsDelete (Some "Z1") "id:_acme-challenge.test.example.com:tok"
                 :: EvRecordsGet (Some "Z1") name "tok" :: trace h1.
Proof.
  intros name h h1.
  pose (r := {| r_id := "id:_acme-challenge.test.example.com:tok"; r_name := name;
                r_type := "TXT"; r_content := "tok"; r_ttl := 120 |}).
  assert (_get_zone_id Sim.env0 "test.example.com" h = (Returned (Some "Z1"), h1))
    as Hzone by (vm_compute; reflexivity).
  assert (dns_records_get (Some "Z1") "TXT" name "tok" (world h1)
          = (ApiOk [r], world h1)) as Hlookup by (vm_compute; reflexivity).
  assert (r_id r <> "") as Hid by discriminate.
  exact (clean_deletes_first_match Sim.env0 "test.example.com" "f" "tok"
           h (Some "Z1") h1 r [] (world h1) Hzone Hlookup Hid).
Defined.

(** X9 on a run: a first deployment. *)
Lemma deploy_creates_once_witness :
  let name := "_acme-challenge.test.example.com" in
  let h := __init__ ∅ Sim.w0 in
  List.filter is_post
    (trace (snd (_deploy_challenge Sim.env0 5 "test.example.com" "f" "tok" h)))
  = EvRecordsPost (Some "Z1")
      {| new_name := name; new_type := "TXT"; new_content := "tok"; new_ttl := 120 |}
      :: List.filter is_post (trace h).
Proof.
  intros name h.
  pose (h1 := snd (_get_zone_id Sim.env0 "test.example.com" h)).
  pose (h2 := snd (_get_txt_record_id (Some "Z1") name "tok" h1)).
  assert (_get_zone_id Sim.env0 "test.example.com" h = (Returned (Some "Z1"), h1))
    as Hzone by (vm_compute; reflexivity).
  assert (_get_txt_record_id (Some "Z1") name "tok" h1 = (Returned None, h2))
    as Hlookup by (vm_compute; reflexivity).
  exact (deploy_creates_once Sim.env0 5 "test.example.com" "f" "tok"
           h (Some "Z1") h1 None h2 Hzone Hlookup eq_refl).
Defined.


(** X12 on a run: a first deployment through the dispatcher. *)
Lemma main_saves_after_zone_queries_witness :
  let h := __init__ ∅ Sim.w0 in
  let h' := snd (main Sim.env0 5 ["deploy_challenge"; "test.example.com"; "f"; "tok"] h) in
  files h' !! Sim.cache_fname
  = Some {| account := Some "ops@example.com"; zone := _zone_id_cache h';
            mode := 384 |}.
Proof.
  intros h h'.
  assert (main Sim.env0 5 ["deploy_challenge"; "test.example.com"; "f"; "tok"] h
          = (Returned tt, h')) as Hrun by (vm_compute; reflexivity).
  assert (List.filter is_zones_get (trace h') <> List.filter is_zones_get (trace h))
    as Hnew by (vm_compute; discriminate).
  destruct (main_saves_after_zone_queries Sim.env0 5 "deploy_challenge"
              "test.example.com" "f" "tok" h h' (or_introl eq_refl) Hrun Hnew)
    as (md & [= <-] & Hfile).
  exact Hfile.
Defined.

(** X14 on a run: no zone was found, and the provider refuses the lookup. *)
Lemma provider_read_errors_are_uncaught_witness :
  let name := "_acme-challenge.test.example.org" in
  let h := __init__ ∅ Sim.w0 in
  let h1 := snd (_get_zone_id Sim.env0 "test.example.org" h) in
  let h2 := emit (EvRecordsGet None name "tok") (set_world (world h1) h1) in
  _deploy_challenge Sim.env0 5 "test.example.org" "f" "tok" h
    = (Raised CloudFlareAPIError, h2) /\
  _clean_challenge Sim.env0 "test.example.org" "f" "tok" h
    = (Raised CloudFlareAPIError, h2).
Proof.
  intros name h h1 h2.
  assert (_get_zone_id Sim.env0 "test.example.org" h = (Returned None, h1)) as Hzone
    by (vm_compute; reflexivity).
  assert (dns_records_get None "TXT" name "tok" (world h1) = (ApiError, world h1))
    as Hlookup by reflexivity.
  exact (proj2 (provider_read_errors_are_uncaught Sim.env0 5 "test.example.org"
                  "f" "tok" h) None h1 (world h1) Hzone Hlookup).
Defined.

(** X6 on runs: an answer with the token in its first record; the file's
    own imports; bytes that do not decode before the token. *)
Lemma dns_propagated_outcomes_witness :
  let name := "_acme-challenge.test.example.com" in
  let good := Sim.with_answers [DnsAnswer [{| strings := ["other"; "tok"] |}]] Sim.w0 in
  fst (_dns_propagated Sim.env0 name "tok" (__init__ ∅ good)) = Returned true /\
  _dns_propagated Sim.env0 name "tok" (__init__ ∅ Sim.w_as_imported)
    = (Raised AttributeError, __init__ ∅ Sim.w_as_imported) /\
  fst (_dns_propagated Sim.env0 name "tok" (__init__ ∅ Sim.w_bad_bytes))
    = Raised UnicodeDecodeError.
Proof.
  intros name good. split; [|split].
  - destruct (dns_propagated_outcomes Sim.env0 name "tok" (__init__ ∅ good))
      as (ns & answer & w & Hq & _ & r & Hrun & Hcases).
    injection Hq as <- <-. rewrite Hrun. apply Hcases.
    exists [], {| strings := ["other"; "tok"] |}, [].
    split; [reflexivity|]. split; [constructor|]. split; [reflexivity|].
    apply list_elem_of_further, list_elem_of_here.
  - exact (dns_propagated_outcomes Sim.env0 name "tok" (__init__ ∅ Sim.w_as_imported)).
  - destruct (dns_propagated_outcomes Sim.env0 name "tok" (__init__ ∅ Sim.w_bad_bytes))
      as (ns & answer & w & Hq & _ & r & Hrun & Hcases).
    injection Hq as <- <-. rewrite Hrun. apply Hcases.
    exists [], {| strings := [String (ascii_of_N 255) ""] |}, [{| strings := ["tok"] |}].
    split; [reflexivity|]. split; [constructor|]. discriminate.
Defined.

